(** * Rocket: the chat controller, the chart renderer and the session list

    A shallow embedding of the client-side TypeScript of the mining
    assistant:
    - [ChatComponent] (chat.component.ts): message submission, the
      response and error callbacks, [clearChat], the session-load event;
    - [ChartsComponent] (charts.component.ts): [renderChart],
      [generateColors], [getColor], [formatLabel];
    - [AppComponent.refreshSessions] (app.component.ts).

    Conventions of the embedding:
    - a JavaScript string is its sequence of UTF-16 code units;
    - [new Date()] is an explicit clock reading passed to the operation;
    - calls to collaborators (history service, query service, audio
      service, scrolling) are recorded, in order, in a call log kept in
      the component state;
    - the callbacks handed to [subscribe] are separate transitions. *)

From Stdlib Require Import ZArith NArith QArith String Ascii Lia SpecFloat.
From stdpp Require Import base tactics option list gmap.

Local Open Scope Z_scope.
Local Open Scope nat_scope.

(* ===================================================================== *)
(** ** JavaScript strings and values                                      *)
(* ===================================================================== *)

Module JS.

(** A string is a list of UTF-16 code units. *)
Definition jsstring := list N.

(** String literal of Basic Latin characters. *)
Definition js (s : string) : jsstring :=
  N_of_ascii <$> list_ascii_of_string s.

(** The code units that [String.prototype.trim] strips: WhiteSpace and
    LineTerminator of ECMA-262 (TAB, LF, VT, FF, CR, SP, NBSP, the Zs
    category, LS, PS, ZWNBSP). *)
Definition is_white_space (c : N) : bool :=
  ((9 <=? c) && (c <=? 13) || (c =? 32) || (c =? 160) || (c =? 5760)
   || (8192 <=? c) && (c <=? 8202) || (c =? 8232) || (c =? 8233)
   || (c =? 8239) || (c =? 8287) || (c =? 12288) || (c =? 65279))%N.

Fixpoint trimStart (s : jsstring) : jsstring :=
  match s with
  | c :: s' => if is_white_space c then trimStart s' else s
  | [] => []
  end.

Definition trimEnd (s : jsstring) : jsstring :=
  reverse (trimStart (reverse s)).

(** [s.trim()] *)
Definition trim (s : jsstring) : jsstring := trimEnd (trimStart s).

(** [s.substring(0, n)] for a non-negative integer [n]. *)
Definition substring0 (n : nat) (s : jsstring) : jsstring := take n s.

(** Truthiness of a string: the empty string is the only falsy one. *)
Definition truthy_string (s : jsstring) : bool :=
  match s with [] => false | _ => true end.

(** The values a record field can hold.  Numbers are the integers (the
    payloads carry counts and totals); [VRef] is a reference to an object
    or an array, compared by identity as JavaScript does; [VBuiltin] is
    the built-in function or object that [Object.prototype] holds under
    the given name. *)
Inductive value :=
  | VUndefined
  | VNull
  | VBool (b : bool)
  | VNum (n : Z)
  | VStr (s : jsstring)
  | VRef (r : nat)
  | VBuiltin (name : jsstring).

#[export] Instance value_eq_dec : EqDecision value.
Proof. solve_decision. Defined.

(** [Boolean(v)]: undefined, null, false, 0 and the empty string are falsy. *)
Definition truthy (v : value) : bool :=
  match v with
  | VUndefined | VNull => false
  | VBool b => b
  | VNum n => negb (n =? 0)%Z
  | VStr s => truthy_string s
  | VRef _ => true
  | VBuiltin _ => true
  end.

(** [a || b] *)
Definition or_else (a b : value) : value := if truthy a then a else b.

(** An object with its own enumerable string-keyed properties, in the
    order in which [Object.keys] lists them. *)
Definition record := list (jsstring * value).

(** The names of the properties of [Object.prototype], the prototype of
    every record (an object literal or a parsed JSON object). *)
Definition object_prototype_keys : list jsstring :=
  [ js "constructor"; js "__defineGetter__"; js "__defineSetter__";
    js "hasOwnProperty"; js "__lookupGetter__"; js "__lookupSetter__";
    js "isPrototypeOf"; js "propertyIsEnumerable"; js "toString";
    js "valueOf"; js "__proto__"; js "toLocaleString" ].

(** [Object.prototype[k]]: a built-in under each of its names (also
    under [__proto__], whose getter returns the prototype itself), else
    undefined. *)
Definition inherited (k : jsstring) : value :=
  if bool_decide (k ∈ object_prototype_keys) then VBuiltin k
  else VUndefined.

(** [d[k]] (and [d.k]): the own property when the object has it, else
    what its prototype has under the name. *)
Fixpoint get (d : record) (k : jsstring) : value :=
  match d with
  | [] => inherited k
  | (k', v) :: d' => if decide (k' = k) then v else get d' k
  end.

(** [k in d] for own properties. *)
Definition has (d : record) (k : jsstring) : bool :=
  bool_decide (k ∈ d.*1).

(** [Object.keys(d)] *)
Definition keys (d : record) : list jsstring := d.*1.

(** [Array.from(new Set(l))]: a Set keeps one entry per value, in the
    order of first insertion. *)
Definition set_add (seen : list value) (v : value) : list value :=
  if decide (v ∈ seen) then seen else seen ++ [v].

Definition array_from_set (l : list value) : list value :=
  foldl set_add [] l.

End JS.

Import JS.

Declare Scope js_scope.
Delimit Scope js_scope with js.
Infix "|||" := or_else (at level 50, left associativity) : js_scope.
Local Open Scope js_scope.

(* ===================================================================== *)
(** ** charts.component.ts                                                *)
(* ===================================================================== *)

Module Charts.

Inductive ChartType := line | bar | pie | doughnut.

#[export] Instance ChartType_eq_dec : EqDecision ChartType.
Proof. solve_decision. Defined.

(** A CSS colour as the two template literals of the component build it:
    [rgba(r, g, b, alpha)] and [hsla(hue, s%, l%, alpha)].  The hue is a
    computed number: its exact value, or [None] for NaN. *)
Inductive color :=
  | Rgba (r g b : Z) (alpha : Q)
  | Hsla (hue : option Q) (s l : Z) (alpha : Q).

(** The eight colours of [generateColors]. *)
Definition palette8 (alpha : Q) : list color :=
  [ Rgba 76 175 80 alpha;  Rgba 33 150 243 alpha;
    Rgba 255 193 7 alpha;  Rgba 244 67 54 alpha;
    Rgba 156 39 176 alpha; Rgba 0 188 212 alpha;
    Rgba 255 152 0 alpha;  Rgba 121 85 72 alpha ].

(** The six colours of [getColor]. *)
Definition palette6 (alpha : Q) : list color :=
  [ Rgba 76 175 80 alpha;  Rgba 33 150 243 alpha;
    Rgba 255 193 7 alpha;  Rgba 244 67 54 alpha;
    Rgba 156 39 176 alpha; Rgba 0 188 212 alpha ].

(** *** Numbers of the hue

    JavaScript numbers are IEEE 754 binary64 values; the operations are
    those of the Standard Library's specification of floating-point
    arithmetic, with a 53-bit mantissa and round to nearest, ties to
    even. *)

Definition prec : Z := 53.
Definition emax : Z := 1024.

(** The number of a loop index (exact below 2^53). *)
Definition number_of_nat (i : nat) : spec_float :=
  binary_normalize prec emax (Z.of_nat i) 0 false.

(** The number that the literal [137.508] denotes: the binary64 value
    nearest to it, 4838132637191111 / 2^45. *)
Definition literal_137_508 : spec_float :=
  S754_finite false 4838132637191111 (-45).

(** [x * y] *)
Definition number_mul (x y : spec_float) : spec_float :=
  SFmul prec emax x y.

(** The exact value of a finite number, as a fraction whose denominator
    is a power of two; [None] for the infinities and NaN. *)
Definition number_value (x : spec_float) : option Q :=
  match x with
  | S754_zero _ => Some 0%Q
  | S754_finite s m e =>
      let n := cond_Zopp s (Zpos m) in
      match e with
      | Zneg k => Some (n # (2 ^ k)%positive)
      | _ => Some ((n * 2 ^ e)%Z # 1)
      end
  | _ => None
  end.

(** [x % 360] for a finite [x]: the remainder is exact and has the sign
    of the dividend. *)
Definition remainder_360 (x : Q) : Q :=
  Z.rem (Qnum x) (360 * Zpos (Qden x)) # Qden x.

(** [(i * 137.508) % 360]; the remainder of an infinite product is
    NaN. *)
Definition hue (i : nat) : option Q :=
  remainder_360
    <$> number_value (number_mul (number_of_nat i) literal_137_508).

(** [generateColors(count, alpha)] *)
Definition generateColors (count : nat) (alpha : Q) : list color :=
  let colors := palette8 alpha in
  if decide (length colors < count) then
    let additionalColors :=
      (λ i, Hsla (hue i) 70 65 alpha)
        <$> seq (length colors) (count - length colors) in
    take count (colors ++ additionalColors)
  else take count colors.

(** [getColor(index, alpha)]: [colors[index % colors.length]]. *)
Definition getColor (index : nat) (alpha : Q) : option color :=
  let colors := palette6 alpha in
  colors !! (index mod length colors).

(** One entry of [datasets]: the object literal of the pie branch, or the
    one of the line and bar branch. *)
Inductive dataset :=
  | Slices (data : list value) (backgroundColor borderColor : list color)
      (borderWidth : Z)
  | Series (label : jsstring) (data : list value)
      (borderColor backgroundColor : option color)
      (fill : bool) (tension : Q) (borderWidth : Z).

Definition dataset_data (ds : dataset) : list value :=
  match ds with Slices d _ _ _ => d | Series _ d _ _ _ _ _ => d end.

Definition dataset_label (ds : dataset) : option jsstring :=
  match ds with Slices _ _ _ _ => None | Series l _ _ _ _ _ _ => Some l end.

Record ChartData := { labels : list value; datasets : list dataset }.

Section Render.

(** [String.prototype.toUpperCase] of the platform. *)
Variable toUpperCase : jsstring → jsstring.

(** [.] of a regular expression matches any code unit but a line
    terminator. *)
Definition is_line_terminator (c : N) : bool :=
  ((c =? 10) || (c =? 13) || (c =? 8232) || (c =? 8233))%N.

(** [key.replace(/([A-Z])/g, ' $1')] *)
Fixpoint space_capitals (s : jsstring) : jsstring :=
  match s with
  | [] => []
  | c :: s' =>
      if ((65 <=? c) && (c <=? 90))%N then 32%N :: c :: space_capitals s'
      else c :: space_capitals s'
  end.

(** [s.replace(/^./, str => str.toUpperCase())] *)
Definition upper_first (s : jsstring) : jsstring :=
  match s with
  | [] => []
  | c :: s' => if is_line_terminator c then s else toUpperCase [c] ++ s'
  end.

Definition formatLabel (key : jsstring) : jsstring :=
  upper_first (space_capitals key).

(** [d.status || d.type || d.name || d.label || 'Unknown'] *)
Definition pieLabel (d : record) : value :=
  get d (js "status") ||| get d (js "type") ||| get d (js "name")
    ||| get d (js "label") ||| VStr (js "Unknown").

(** [d.count || d.value || d.percentage || 0] *)
Definition pieValue (d : record) : value :=
  get d (js "count") ||| get d (js "value") ||| get d (js "percentage")
    ||| VNum 0.

(** [d.month || d.date || d.period || ''] *)
Definition seriesLabel (d : record) : value :=
  get d (js "month") ||| get d (js "date") ||| get d (js "period")
    ||| VStr [].

(** The filter of [numericFields]. *)
Definition isNumericField (k : jsstring) : bool :=
  bool_decide (k ≠ js "month") && bool_decide (k ≠ js "date")
  && bool_decide (k ≠ js "period") && bool_decide (k ≠ js "label").

(** The [labels] and [datasets] that [renderChart] computes from [type]
    and [data] (the two branches of its [if]). *)
Definition chartData (type : ChartType) (data : list record) : ChartData :=
  if bool_decide (type = pie) || bool_decide (type = doughnut) then
    let labels := pieLabel <$> data in
    {| labels := labels;
       datasets :=
         [ Slices (pieValue <$> data)
                  (generateColors (length labels) (7 # 10))
                  (generateColors (length labels) 1)
                  2 ] |}
  else
    let labels := filter truthy (array_from_set (seriesLabel <$> data)) in
    let numericFields :=
      filter isNumericField (keys (default [] (data !! 0))) in
    {| labels := labels;
       datasets :=
         imap (λ idx key,
                 Series (formatLabel key)
                        ((λ d, get d key ||| VNum 0) <$> data)
                        (getColor idx 1)
                        (if bool_decide (type = bar) then getColor idx (7 # 10)
                         else getColor idx (1 # 10))
                        (bool_decide (type = line))
                        (3 # 10)
                        2)
              numericFields |}.

(** [getChartOptions()] *)
Record ChartOptions := {
  responsive : bool;
  maintainAspectRatio : bool;
  legend_display : bool;
  legend_position : jsstring;
  title_display : bool;
  title_text : jsstring;
  title_font_size : Z;
  scales_y_beginAtZero : option bool;
}.

Definition getChartOptions (type : ChartType) (title : jsstring)
  : ChartOptions :=
  let baseOptions :=
    {| responsive := true; maintainAspectRatio := true;
       legend_display := true; legend_position := js "top";
       title_display := truthy_string title; title_text := title;
       title_font_size := 14; scales_y_beginAtZero := None |} in
  if bool_decide (type = line) || bool_decide (type = bar) then
    {| responsive := responsive baseOptions;
       maintainAspectRatio := maintainAspectRatio baseOptions;
       legend_display := legend_display baseOptions;
       legend_position := legend_position baseOptions;
       title_display := title_display baseOptions;
       title_text := title_text baseOptions;
       title_font_size := title_font_size baseOptions;
       scales_y_beginAtZero := Some true |}
  else baseOptions.

Record ChartConfig := {
  cfg_type : ChartType;
  cfg_data : ChartData;
  cfg_options : ChartOptions;
}.

(** *** The charting engine

    Chart.js keeps a registry of the live charts.  A chart has an id and
    the canvas it is bound to; [new Chart] registers one, [destroy]
    removes the chart with that id, [Chart.getChart(canvas)] finds a live
    chart by its canvas.  The registry is a list: nothing in its type
    keeps two charts off one canvas. *)

Definition Canvas := nat.

Record Chart := {
  chart_id : nat;
  chart_canvas : Canvas;
  chart_config : ChartConfig;
}.

Record Engine := {
  instances : list Chart;
  next_id : nat;
}.

(** The live charts bound to a surface. *)
Definition live_on (canvas : Canvas) (e : Engine) : list Chart :=
  filter (λ ch, chart_canvas ch = canvas) (instances e).

(** [Chart.getChart(canvas)] *)
Definition getChart (canvas : Canvas) (e : Engine) : option Chart :=
  head (live_on canvas e).

(** [chart.destroy()], for the chart with this id. *)
Definition destroy (id : nat) (e : Engine) : Engine :=
  {| instances := filter (λ ch, chart_id ch ≠ id) (instances e);
     next_id := next_id e |}.

(** [new Chart(canvas, config)]: the handle of the new chart and the
    engine with the chart registered. *)
Definition newChart (canvas : Canvas) (config : ChartConfig) (e : Engine)
  : nat * Engine :=
  (next_id e,
   {| instances :=
        instances e ++ [ {| chart_id := next_id e; chart_canvas := canvas;
                            chart_config := config |} ];
      next_id := S (next_id e) |}).

(** [document.getElementById]: the element with this id, if any. *)
Definition Document := jsstring → option Canvas.

(** The component: its inputs and its chart handle ([chartInstance] is
    the id of the chart it created, or null). *)
Record ChartsComponent := {
  data : list record;
  type : ChartType;
  title : jsstring;
  chartId : jsstring;
  chartInstance : option nat;
}.

Definition set_chartInstance (h : option nat) (c : ChartsComponent)
  : ChartsComponent :=
  {| data := data c; type := type c; title := title c;
     chartId := chartId c; chartInstance := h |}.

(** The surface a component draws on: the element that [renderChart()]
    looks up, named by [chartId], or by the title when the id is empty,
    with the suffix [_chart]. *)
Definition surface (doc : Document) (c : ChartsComponent) : option Canvas :=
  doc ((if truthy_string (chartId c) then chartId c else title c)
         ++ js "_chart").

(** The first half of [renderChart()], once the canvas is found: destroy
    the chart of the component's own handle, then the chart that the
    registry has for the canvas. *)
Definition destroyExisting (canvas : Canvas) (c : ChartsComponent)
    (e : Engine) : ChartsComponent * Engine :=
  let '(c, e) :=
    match chartInstance c with
    | Some h => (set_chartInstance None c, destroy h e)
    | None => (c, e)
    end in
  let e :=
    match getChart canvas e with
    | Some existingChart => destroy (chart_id existingChart) e
    | None => e
    end in
  (c, e).

(** [renderChart()] ([console.warn] of the missing canvas is not
    modelled). *)
Definition renderChart (document : Document) (c : ChartsComponent)
    (e : Engine) : ChartsComponent * Engine :=
  let chartId := if truthy_string (chartId c) then chartId c else title c in
  match document (chartId ++ js "_chart") with
  | None => (c, e)
  | Some canvas =>
      let '(c, e) := destroyExisting canvas c e in
      let '(h, e) :=
        newChart canvas
          {| cfg_type := type c;
             cfg_data := chartData (type c) (data c);
             cfg_options := getChartOptions (type c) (title c) |} e in
      (set_chartInstance (Some h) c, e)
  end.

(** [ngOnDestroy()] *)
Definition ngOnDestroy (c : ChartsComponent) (e : Engine)
  : ChartsComponent * Engine :=
  match chartInstance c with
  | Some h => (set_chartInstance None c, destroy h e)
  | None => (c, e)
  end.

(** *** A view with several chart components

    The components of the view share the engine and the document.  The
    framework binds a component's inputs, fires its deferred render, and
    removes it from the view; the document changes under them.  A
    removed component stays in the map: [ngOnDestroy] does not cancel
    the timers of [ngOnInit] and [ngOnChanges], so a [Render] of the
    component can still follow its [Remove]. *)

Record View := {
  components : gmap nat ChartsComponent;
  engine : Engine;
  document : Document;
}.

Inductive ViewEvent :=
  | Bind (i : nat) (data : list record) (type : ChartType)
      (title chartId : jsstring)
  | Render (i : nat)
  | Remove (i : nat)
  | SetDocument (doc : Document).

Definition view_step (v : View) (ev : ViewEvent) : View :=
  match ev with
  | Bind i d t ti ci =>
      let h := components v !! i ≫= chartInstance in
      {| components :=
           <[i := {| data := d; type := t; title := ti; chartId := ci;
                     chartInstance := h |}]> (components v);
         engine := engine v; document := document v |}
  | Render i =>
      match components v !! i with
      | Some c =>
          let '(c', e') := renderChart (document v) c (engine v) in
          {| components := <[i := c']> (components v);
             engine := e'; document := document v |}
      | None => v
      end
  | Remove i =>
      match components v !! i with
      | Some c =>
          let '(c', e') := ngOnDestroy c (engine v) in
          {| components := <[i := c']> (components v);
             engine := e'; document := document v |}
      | None => v
      end
  | SetDocument doc =>
      {| components := components v; engine := engine v; document := doc |}
  end.

Definition view_run (v : View) (evs : list ViewEvent) : View :=
  foldl view_step v evs.

(** At most one live chart is bound to each surface. *)
Definition at_most_one_live (e : Engine) : Prop :=
  ∀ canvas, length (live_on canvas e) ≤ 1.

End Render.

(** [toUpperCase] on Basic Latin, for the examples. *)
Definition asciiToUpperCase (s : jsstring) : jsstring :=
  (λ c, if ((97 <=? c) && (c <=? 122))%N then (c - 32)%N else c) <$> s.

End Charts.

(* ===================================================================== *)
(** ** The history service                                                *)
(* ===================================================================== *)

Module History.

Inductive Role := user | assistant.

#[export] Instance Role_eq_dec : EqDecision Role.
Proof. solve_decision. Defined.

(** The audio descriptor of a response: [{ success, audio_base64? }]. *)
Record AudioDescriptor := {
  audio_success : bool;
  audio_base64 : option jsstring;
}.

(** The visualization payload: [{ kpis, charts }], the charts keyed by
    name, each an array of records for the chart renderer. *)
Record Visualizations := {
  kpis : record;
  charts : list (jsstring * list record);
}.

(** [ChatMessageRecord]: a message as persisted; [timestamp] is the ISO
    string of an instant, kept here as the instant (milliseconds). *)
Record ChatMessageRecord := {
  role : Role;
  content : jsstring;
  timestamp : Z;
  visualizations : option Visualizations;
  recommendations : option (list jsstring);
  audio : option AudioDescriptor;
}.

(** [ChatSession] *)
Record ChatSession := {
  id : jsstring;
  title : jsstring;
  createdAt : Z;
  updatedAt : Z;
  language : jsstring;
  messages : list ChatMessageRecord;
}.

(** The interface of [HistoryService] that the chat component calls, as a
    state transformer on the service's state [H].  The first argument of
    a writing method is the clock reading at the call. *)
Class HistoryService (H : Type) := {
  create : Z → jsstring → jsstring → H → ChatSession * H;
  appendMessage : Z → jsstring → ChatMessageRecord → H → H;
  rename : Z → jsstring → jsstring → H → H;
  load : jsstring → H → option ChatSession;
}.

(** *** The session store of the specification

    history.service.ts is not among the sources; the store below follows
    section 4.1 of the specification. *)

(** Modelled from the spec: the persisted collection of the Session Store
    (the body of history.service.ts is missing).  [draws] counts the
    identifiers drawn from the random source so far. *)
Record Store := {
  sessions : list ChatSession;
  draws : nat;
}.

(** Modelled from the spec: the collection before any session is created
    (history.service.ts is missing). *)
Definition empty_store : Store := {| sessions := []; draws := 0 |}.

(** Modelled from the spec: rewriting the session with a given id in the
    collection (the body of history.service.ts is missing); an unknown id
    leaves the collection as it is. *)
Fixpoint update_session (sid : jsstring) (f : ChatSession → ChatSession)
    (l : list ChatSession) : list ChatSession :=
  match l with
  | [] => []
  | s :: l' =>
      if decide (id s = sid) then f s :: l' else s :: update_session sid f l'
  end.

Section Store.

(** The random source of identifiers: the [n]-th identifier drawn. *)
Variable random_id : nat → jsstring.

(** Modelled from the spec: [createSession(title, language)] of the
    Session Store (history.service.ts is missing).  It generates the id
    and the timestamps, inserts the session at the head of the collection,
    and a blank title becomes "New chat". *)
Definition store_create (now : Z) (title language : jsstring) (st : Store)
  : ChatSession * Store :=
  let s :=
    {| id := random_id (draws st);
       title := if truthy_string (trim title) then title else js "New chat";
       createdAt := now; updatedAt := now;
       language := language; messages := [] |} in
  (s, {| sessions := s :: sessions st; draws := S (draws st) |}).

(** Modelled from the spec: [appendMessage(sessionId, message)] of the
    Session Store (history.service.ts is missing): ignored for an unknown
    id, otherwise appends and bumps [updatedAt]. *)
Definition store_appendMessage (now : Z) (sid : jsstring)
    (m : ChatMessageRecord) (st : Store) : Store :=
  {| sessions :=
       update_session sid
         (λ s, {| id := id s; title := title s; createdAt := createdAt s;
                  updatedAt := now; language := language s;
                  messages := messages s ++ [m] |})
         (sessions st);
     draws := draws st |}.

(** Modelled from the spec: [renameSession(sessionId, newTitle)] of the
    Session Store (history.service.ts is missing): trims; a blank title
    keeps the old one; [updatedAt] advances either way. *)
Definition store_rename (now : Z) (sid newTitle : jsstring) (st : Store)
  : Store :=
  {| sessions :=
       update_session sid
         (λ s, {| id := id s;
                  title := if truthy_string (trim newTitle)
                           then trim newTitle else title s;
                  createdAt := createdAt s; updatedAt := now;
                  language := language s; messages := messages s |})
         (sessions st);
     draws := draws st |}.

(** Modelled from the spec: [loadSession(sessionId)] of the Session Store
    (history.service.ts is missing). *)
Definition store_load (sid : jsstring) (st : Store) : option ChatSession :=
  head (filter (λ s, id s = sid) (sessions st)).

(** Modelled from the spec: the Session Store as the history service of
    the chat component (history.service.ts is missing). *)
Definition store_service : HistoryService Store :=
  {| create := store_create;
     appendMessage := store_appendMessage;
     rename := store_rename;
     load := store_load |}.

End Store.

(** A random source for the examples: the [n]-th identifier is the
    letter s followed by [n] primes. *)
Definition example_id (n : nat) : jsstring := js "s" ++ replicate n 39%N.

End History.

(* ===================================================================== *)
(** ** chat.component.ts                                                  *)
(* ===================================================================== *)

Module Chat.

Import History.

(** [ChatMessage]: a message of the in-memory list. *)
Record ChatMessage := {
  role : Role;
  content : jsstring;
  timestamp : Z;
  visualizations : option Visualizations;
  recommendations : option (list jsstring);
  audio : option AudioDescriptor;
}.

(** A message with role, content and timestamp only. *)
Definition plain (r : Role) (c : jsstring) (t : Z) : ChatMessage :=
  {| role := r; content := c; timestamp := t; visualizations := None;
     recommendations := None; audio := None |}.

(** The record persisted for a message. *)
Definition to_record (m : ChatMessage) : ChatMessageRecord :=
  {| History.role := role m; History.content := content m;
     History.timestamp := timestamp m;
     History.visualizations := visualizations m;
     History.recommendations := recommendations m;
     History.audio := audio m |}.

(** The message shown for a persisted record (the [map] of the
    session-load listener). *)
Definition of_record (m : ChatMessageRecord) : ChatMessage :=
  {| role := History.role m; content := History.content m;
     timestamp := History.timestamp m;
     visualizations := History.visualizations m;
     recommendations := History.recommendations m;
     audio := History.audio m |}.

(** The calls the component makes to its collaborators. *)
Inductive Call :=
  | HistoryCreate (title language : jsstring)
  | HistoryAppendMessage (id : jsstring) (m : ChatMessageRecord)
  | HistoryRename (id title : jsstring)
  | HistoryLoad (id : jsstring)
  | SendQuery (query language : jsstring) (includeAudio : bool)
  | PlayAudio (audio_base64 : option jsstring)
  | ScrollToBottom.

(** The response of the query service:
    [{ success, response }] with
    [response = { answer, visualizations, recommendations, audio }]. *)
Record ResponseBody := {
  answer : jsstring;
  resp_visualizations : option Visualizations;
  resp_recommendations : option (list jsstring);
  resp_audio : option AudioDescriptor;
}.

Record QueryResponse := {
  success : bool;
  response : ResponseBody;
}.

(** How a query ends: the [next] callback with a response, or the [error]
    callback. *)
Inductive Outcome :=
  | Next (r : QueryResponse)
  | TransportError.

Section Controller.

Context {H : Type} `{HistoryService H}.

(** The fields of the component, the state of the history service it was
    given, and the log of its calls. *)
Record ChatComponent := {
  messages : list ChatMessage;
  userInput : jsstring;
  isLoading : bool;
  includeAudio : bool;
  currentSession : option ChatSession;
  language : jsstring;
  history : H;
  calls : list Call;
}.

(** The component as constructed, before [ngOnInit]. *)
Definition initial (language : jsstring) (h : H) : ChatComponent :=
  {| messages := []; userInput := []; isLoading := false;
     includeAudio := true; currentSession := None; language := language;
     history := h; calls := [] |}.

Definition greeting : jsstring :=
  js "Hello! I'm your Mining Intelligence Assistant. "
    ++ js "Ask me about equipment status, production efficiency, "
    ++ js "safety incidents, or get management recommendations.".

(** [ngOnInit()] (the listeners it installs are [suggestQuestion] and
    [loadSession] below). *)
Definition ngOnInit (now : Z) (s : ChatComponent) : ChatComponent :=
  {| messages := messages s ++ [plain assistant greeting now];
     userInput := userInput s; isLoading := isLoading s;
     includeAudio := includeAudio s; currentSession := currentSession s;
     language := language s; history := history s; calls := calls s |}.

(** [sendMessage()], up to the call of the query service. *)
Definition sendMessage (now : Z) (s : ChatComponent) : ChatComponent :=
  if negb (truthy_string (trim (userInput s))) || isLoading s then s
  else
    let userMessage := plain user (userInput s) now in
    let messages := messages s ++ [userMessage] in
    (* Create session if not exists *)
    let '(session, history, calls) :=
      match currentSession s with
      | None =>
          let '(cs, h) := create now (userInput s) (language s) (history s) in
          (cs, h, calls s ++ [HistoryCreate (userInput s) (language s)])
      | Some cs => (cs, history s, calls s)
      end in
    (* Persist user message *)
    let record := to_record userMessage in
    let history := appendMessage now (id session) record history in
    let calls := calls ++ [HistoryAppendMessage (id session) record] in
    (* Auto-title session with first user message if needed *)
    let '(history, calls) :=
      if bool_decide (length messages = 2) then
        let t := substring0 30 (content userMessage) in
        (rename now (id session) t history,
         calls ++ [HistoryRename (id session) t])
      else (history, calls) in
    let query := userInput s in
    {| messages := messages; userInput := []; isLoading := true;
       includeAudio := includeAudio s; currentSession := Some session;
       language := language s; history := history;
       calls := calls ++ [SendQuery query (language s) (includeAudio s)] |}.

Definition apology : jsstring :=
  js "Sorry, I encountered an error. Please try again.".

(** The [next] callback of the subscription. *)
Definition onNext (now : Z) (r : QueryResponse) (s : ChatComponent)
  : ChatComponent :=
  if success r then
    let assistantMessage :=
      {| role := assistant; content := answer (response r);
         timestamp := now;
         visualizations := resp_visualizations (response r);
         recommendations := resp_recommendations (response r);
         audio := resp_audio (response r) |} in
    let messages := messages s ++ [assistantMessage] in
    (* Persist assistant message *)
    let '(history, calls) :=
      match currentSession s with
      | Some cs =>
          (appendMessage now (id cs) (to_record assistantMessage) (history s),
           calls s
             ++ [HistoryAppendMessage (id cs) (to_record assistantMessage)])
      | None => (history s, calls s)
      end in
    let calls :=
      if includeAudio s
         && from_option audio_success false (resp_audio (response r))
      then calls ++ [PlayAudio (resp_audio (response r) ≫= audio_base64)]
      else calls in
    {| messages := messages; userInput := userInput s; isLoading := false;
       includeAudio := includeAudio s; currentSession := currentSession s;
       language := language s; history := history;
       calls := calls ++ [ScrollToBottom] |}
  else
    {| messages := messages s ++ [plain assistant apology now];
       userInput := userInput s; isLoading := false;
       includeAudio := includeAudio s; currentSession := currentSession s;
       language := language s; history := history s;
       calls := calls s ++ [ScrollToBottom] |}.

(** The placeholder visualization data of the fallback. *)
Definition sample_visualizations : Visualizations :=
  {| kpis :=
       [ (js "total_incidents", VNum 5); (js "critical_alerts", VNum 2);
         (js "avg_efficiency", VNum 87);
         (js "monthly_production", VNum 12500) ];
     charts :=
       [ (js "equipment_status",
          [ [ (js "status", VStr (js "Operational")); (js "count", VNum 45) ];
            [ (js "status", VStr (js "Maintenance")); (js "count", VNum 8) ];
            [ (js "status", VStr (js "Critical")); (js "count", VNum 2) ] ]);
         (js "production_trend",
          [ [ (js "month", VStr (js "Jan")); (js "production", VNum 12000) ];
            [ (js "month", VStr (js "Feb")); (js "production", VNum 13500) ];
            [ (js "month", VStr (js "Mar")); (js "production", VNum 12800) ] ])
       ] |}.

Definition sample_recommendations : list jsstring :=
  [ js "Schedule maintenance for equipment with >5000 operating hours";
    js "Review safety protocols for incident-prone areas";
    js "Optimize shift schedules to improve efficiency" ].

(** The simulated response of the [error] callback; 34 is the code unit
    of the double quote around the query. *)
Definition fallbackMessage (now : Z) (query : jsstring) : ChatMessage :=
  {| role := assistant;
     content :=
       js "I analyzed your query about " ++ [34%N] ++ query ++ [34%N]
         ++ js ". Here are the current mining operations insights:";
     timestamp := now;
     visualizations := Some sample_visualizations;
     recommendations := Some sample_recommendations;
     audio := None |}.

(** The [error] callback of the subscription; [query] is the constant it
    closes over. *)
Definition onError (now : Z) (query : jsstring) (s : ChatComponent)
  : ChatComponent :=
  {| messages := messages s ++ [fallbackMessage now query];
     userInput := userInput s; isLoading := false;
     includeAudio := includeAudio s; currentSession := currentSession s;
     language := language s; history := history s;
     calls := calls s ++ [ScrollToBottom] |}.

(** The callback that an outcome of the query service runs. *)
Definition deliver (now : Z) (query : jsstring) (o : Outcome)
    (s : ChatComponent) : ChatComponent :=
  match o with
  | Next r => onNext now r s
  | TransportError => onError now query s
  end.

(** A whole submission: [sendMessage] at time [t0] and, when it sent a
    query, the callback of its outcome at time [t1]. *)
Definition submit (t0 t1 : Z) (o : Outcome) (s : ChatComponent)
  : ChatComponent :=
  if negb (truthy_string (trim (userInput s))) || isLoading s then s
  else deliver t1 (userInput s) o (sendMessage t0 s).

Definition cleared : jsstring :=
  js "Chat cleared. How can I help you with mining operations today?".

(** [clearChat()] *)
Definition clearChat (now : Z) (s : ChatComponent) : ChatComponent :=
  {| messages := [plain assistant cleared now];
     userInput := userInput s; isLoading := isLoading s;
     includeAudio := includeAudio s; currentSession := currentSession s;
     language := language s; history := history s; calls := calls s |}.

(** The listener of the [loadSession] event. *)
Definition loadSession (sessionId : jsstring) (s : ChatComponent)
  : ChatComponent :=
  match load sessionId (history s) with
  | Some session =>
      {| messages := of_record <$> History.messages session;
         userInput := userInput s; isLoading := isLoading s;
         includeAudio := includeAudio s; currentSession := Some session;
         language := if truthy_string (History.language session)
                     then History.language session else language s;
         history := history s;
         calls := calls s ++ [HistoryLoad sessionId; ScrollToBottom] |}
  | None =>
      {| messages := messages s; userInput := userInput s;
         isLoading := isLoading s; includeAudio := includeAudio s;
         currentSession := currentSession s; language := language s;
         history := history s; calls := calls s ++ [HistoryLoad sessionId] |}
  end.

(** The input box, bound to [userInput]. *)
Definition setUserInput (text : jsstring) (s : ChatComponent)
  : ChatComponent :=
  {| messages := messages s; userInput := text;
     isLoading := isLoading s; includeAudio := includeAudio s;
     currentSession := currentSession s; language := language s;
     history := history s; calls := calls s |}.

(** The listener of the [suggestQuestion] event. *)
Definition suggestQuestion (now : Z) (detail : jsstring) (s : ChatComponent)
  : ChatComponent :=
  sendMessage now (setUserInput detail s).

(** The number of messages that the store holds for the current
    session. *)
Definition persisted_count (s : ChatComponent) : option nat :=
  cs ← currentSession s;
  session ← load (id cs) (history s);
  Some (length (History.messages session)).

(** The guard of [sendMessage] lets the submission through. *)
Definition accepted (s : ChatComponent) : Prop :=
  truthy_string (trim (userInput s)) = true ∧ isLoading s = false.

(** The session that a submission writes to, and the state of the history
    service once that session exists (the [if (!this.currentSession)] of
    [sendMessage]). *)
Definition target (now : Z) (s : ChatComponent) : ChatSession * H :=
  match currentSession s with
  | Some cs => (cs, history s)
  | None => create now (userInput s) (language s) (history s)
  end.

(** The calls made on the way from [s] to [s'], and the kinds of call
    that the statements below look for. *)
Definition new_calls (s s' : ChatComponent) : list Call :=
  drop (length (calls s)) (calls s').

Definition is_rename (c : Call) : bool :=
  match c with HistoryRename _ _ => true | _ => false end.

Definition is_append (c : Call) : bool :=
  match c with HistoryAppendMessage _ _ => true | _ => false end.

Definition is_create (c : Call) : bool :=
  match c with HistoryCreate _ _ => true | _ => false end.

Definition is_query (c : Call) : bool :=
  match c with SendQuery _ _ _ => true | _ => false end.

End Controller.

Arguments ChatComponent H : clear implicits.

End Chat.

(* ===================================================================== *)
(** ** app.component.ts: the session list                                 *)
(* ===================================================================== *)

Module App.

(** A value as [JSON.parse] returns it. *)
#[warnings="-register-all"]
Inductive json :=
  | JNull
  | JBool (b : bool)
  | JNum (n : Z)
  | JStr (s : jsstring)
  | JArr (items : list json)
  | JObj (fields : list (jsstring * json)).

(** What [localStorage.getItem(key)] does: it throws (storage denied), or
    returns the stored string, or null when the key is absent. *)
Inductive GetItem :=
  | Throws
  | Returns (raw : option jsstring).

Definition LocalStorage := jsstring → GetItem.

Record AppComponent := {
  showHistory : bool;
  sessions : json;
}.

Section Refresh.

(** [JSON.parse] of the platform; [None] when it throws a SyntaxError. *)
Variable JSON_parse : jsstring → option json.

(** The body of the [try] block of [refreshSessions]: the value assigned
    to [sessions], or [None] when an exception leaves the block. *)
Definition refreshSessions_try (localStorage : LocalStorage) : option json :=
  match localStorage (js "mining_chat_sessions_v1") with
  | Throws => None
  | Returns None => Some (JArr [])
  | Returns (Some raw) =>
      if truthy_string raw then JSON_parse raw else Some (JArr [])
  end.

(** [refreshSessions()]: the [catch] clause assigns the empty array. *)
Definition refreshSessions (localStorage : LocalStorage) (a : AppComponent)
  : AppComponent :=
  {| showHistory := showHistory a;
     sessions := default (JArr []) (refreshSessions_try localStorage) |}.

(** [toggleHistory()] *)
Definition toggleHistory (localStorage : LocalStorage) (a : AppComponent)
  : AppComponent :=
  let a := {| showHistory := negb (showHistory a); sessions := sessions a |} in
  if showHistory a then refreshSessions localStorage a else a.

End Refresh.

End App.

(* ===================================================================== *)
(** ** The wording of the specification, for comparison                   *)
(* ===================================================================== *)

Module Wording.

Import Charts.

(** "The first present of the fields [ks]" on a record, with a default:
    the value of the first key of [ks] that the record has. *)
Fixpoint first_present (ks : list jsstring) (d : record) (dflt : value)
  : value :=
  match ks with
  | [] => dflt
  | k :: ks' => if has d k then get d k else first_present ks' d dflt
  end.

(** The value of the first key of [ks] under which the record holds a
    truthy value, with a default. *)
Fixpoint first_truthy (ks : list jsstring) (d : record) (dflt : value)
  : value :=
  match ks with
  | [] => dflt
  | k :: ks' => if truthy (get d k) then get d k else first_truthy ks' d dflt
  end.

Definition category_keys : list jsstring :=
  [js "status"; js "type"; js "name"; js "label"].

Definition amount_keys : list jsstring :=
  [js "count"; js "value"; js "percentage"].

Definition period_keys : list jsstring :=
  [js "month"; js "date"; js "period"].

(** "Deduplicated, order-preserving": each value once, at the place of
    its first occurrence. *)
Fixpoint dedup (l : list value) : list value :=
  match l with
  | [] => []
  | v :: l' => v :: filter (λ w, w ≠ v) (dedup l')
  end.

(** The categorical chart as the specification words it. *)
Definition worded_pie_labels (data : list record) : list value :=
  (λ d, first_present category_keys d (VStr (js "Unknown"))) <$> data.

Definition worded_pie_values (data : list record) : list value :=
  (λ d, first_present amount_keys d (VNum 0)) <$> data.

(** The series chart as the specification words it: the labels, the keys
    that become series ("every remaining field key present on the first
    record, excluding the label keys"), and the values of a series
    ("defaulting to 0 when absent"). *)
Definition worded_series_labels (data : list record) : list value :=
  filter truthy
    (dedup ((λ d, first_present period_keys d (VStr [])) <$> data)).

Definition worded_series_keys (data : list record) : list jsstring :=
  filter (λ k, k ∉ period_keys) (keys (default [] (data !! 0))).

Definition worded_series_values (key : jsstring) (data : list record)
  : list value :=
  (λ d, if has d key then get d key else VNum 0) <$> data.

End Wording.

(* ===================================================================== *)
(** ** Example data                                                       *)
(* ===================================================================== *)

Module Examples.

Import Charts.

(** The two records of the pie example and of the line example. *)
Definition equipment_example : list record :=
  [ [ (js "status", VStr (js "Operational")); (js "count", VNum 45) ];
    [ (js "status", VStr (js "Critical")); (js "count", VNum 2) ] ].

Definition production_example : list record :=
  [ [ (js "month", VStr (js "Jan")); (js "production", VNum 12000) ];
    [ (js "month", VStr (js "Feb")); (js "production", VNum 13500) ] ].

(** Two records of which only the first has its own property
    constructor. *)
Definition inherited_example : list record :=
  [ [ (js "month", VStr (js "Jan")); (js "constructor", VNum 1) ];
    [ (js "month", VStr (js "Feb")) ] ].

(** A view with one component, its canvas in the document, and no chart
    yet. *)
Definition example_view : View :=
  {| components :=
       {[ 0 := {| data := equipment_example; type := pie;
                  title := js "Equipment"; chartId := js "status";
                  chartInstance := None |} ]};
     engine := {| instances := []; next_id := 0 |};
     document :=
       λ id, if decide (id = js "status_chart") then Some 7 else None |}.

(** A parser for the examples: it reads the texts of the empty array and
    of null, and rejects everything else. *)
Definition parse_literals (raw : jsstring) : option App.json :=
  if decide (raw = js "[]") then Some (App.JArr [])
  else if decide (raw = js "null") then Some App.JNull
  else None.

(** A storage that holds one blob under every key. *)
Definition storage_with (raw : jsstring) : App.LocalStorage :=
  λ _, App.Returns (Some raw).


Import History Chat.

#[export] Instance example_service : HistoryService Store :=
  store_service example_id.

(** A freshly opened chat, the first question typed, the state after
    that question met a transport failure, and a second question. *)
Definition fresh : ChatComponent Store :=
  ngOnInit 100 (initial (js "en") empty_store).

Definition first_question : ChatComponent Store :=
  setUserInput (js "Show equipment status") fresh.

Definition after_failure : ChatComponent Store :=
  submit 200 300 TransportError first_question.

Definition second_question : ChatComponent Store :=
  setUserInput (js "And production?") after_failure.

(** The chat cleared after the second question was sent and failed, and
    a third question typed. *)
Definition third_question : ChatComponent Store :=
  setUserInput (js "Any incidents?")
    (clearChat 600 (submit 400 500 TransportError second_question)).

(** The session that the first question created, as the component
    holds it. *)
Definition first_session : ChatSession :=
  {| id := js "s"; title := js "Show equipment status";
     createdAt := 200; updatedAt := 200; History.language := js "en";
     History.messages := [] |}.

End Examples.

(* ===================================================================== *)
(** ** Facts about strings and values                                     *)
(* ===================================================================== *)

(* ===================================================================== *)
(** ** chat.component.ts: the remaining handlers                          *)
(* ===================================================================== *)

Module ChatHandlers.

Import History Chat.

(** A selected file; the component reads its name only. *)
Record File := { name : jsstring }.

Inductive DocType := csv | pdf.

(** [s.endsWith(suffix)] *)
Definition endsWith (s suffix : jsstring) : bool :=
  bool_decide (suffix `suffix_of` s).

(** [o[k]] on the object that maps chart names to arrays of records. *)
Fixpoint chart_rows (charts : list (jsstring * list record)) (k : jsstring)
  : option (list record) :=
  match charts with
  | [] => None
  | (k', rows) :: charts' =>
      if decide (k' = k) then Some rows else chart_rows charts' k
  end.

(** [rows && rows.length > 0] for a property that may be undefined. *)
Definition non_empty (rows : option (list record)) : bool :=
  match rows with
  | Some (_ :: _) => true
  | _ => false
  end.

(** [hasChartData(charts)], read as a condition; [None] is a null or
    undefined argument. *)
Definition hasChartData (charts : option (list (jsstring * list record)))
  : bool :=
  match charts with
  | None => false
  | Some charts =>
      non_empty (chart_rows charts (js "equipment_status"))
      || non_empty (chart_rows charts (js "production_trend"))
      || non_empty (chart_rows charts (js "incidents_trend"))
  end.

Definition is_play (c : Call) : bool :=
  match c with PlayAudio _ => true | _ => false end.

(** What every call of the component satisfies: a query and the title
    of a created session are not blank, and the title of a rename has at
    most 30 code units. *)
Definition sane_call (c : Call) : Prop :=
  match c with
  | SendQuery query _ _ => trim query ≠ []
  | HistoryCreate title _ => trim title ≠ []
  | HistoryRename _ title => length title ≤ 30
  | _ => True
  end.

Section Controller.

Context {H : Type} `{HistoryService H}.

(** [String.prototype.toLowerCase] of the platform. *)
Variable toLowerCase : jsstring → jsstring.

(** [playAudio(message)]: the replay button of a message. *)
Definition playAudio (message : ChatMessage) (s : ChatComponent H)
  : ChatComponent H :=
  match audio message with
  | Some a =>
      match audio_base64 a with
      | Some b =>
          if audio_success a && truthy_string b then
            {| messages := messages s; userInput := userInput s;
               isLoading := isLoading s; includeAudio := includeAudio s;
               currentSession := currentSession s; language := language s;
               history := history s;
               calls := calls s ++ [PlayAudio (Some b)] |}
          else s
      | None => s
      end
  | None => s
  end.

(** [handleEnterEvent(event)]: the state, and whether [preventDefault]
    was called. *)
Definition handleEnterEvent (now : Z) (shiftKey : bool) (s : ChatComponent H)
  : ChatComponent H * bool :=
  if negb shiftKey then (sendMessage now s, true) else (s, false).

(** The listeners that [setupEventListeners] adds to [window], as one
    function of the event's type and detail. *)
Definition onWindowEvent (now : Z) (type detail : jsstring)
    (s : ChatComponent H) : ChatComponent H :=
  if decide (type = js "suggestQuestion") then suggestQuestion now detail s
  else if decide (type = js "loadSession") then loadSession detail s
  else s.

(** The component with its upload field; [uploadCalls] logs the calls of
    [apiService.uploadFile]. *)
Record ChatWithUpload := {
  component : ChatComponent H;
  pendingUpload : option File;
  uploadCalls : list (File * DocType);
}.

(** The [docType] of [onFileSelected]. *)
Definition docType (file : File) : DocType :=
  if endsWith (toLowerCase (name file)) (js ".csv") then csv else pdf.

(** [onFileSelected(event)], up to the call of the upload service;
    [file] is [event?.target?.files?.[0] || null].  (Resetting the value
    of the input element is not modelled.) *)
Definition onFileSelected (file : option File) (u : ChatWithUpload)
  : ChatWithUpload :=
  match file with
  | None => u
  | Some f =>
      {| component := component u; pendingUpload := Some f;
         uploadCalls := uploadCalls u ++ [(f, docType f)] |}
  end.

(** The [push] and [scrollToBottom] of the two upload callbacks. *)
Definition pushStatus (now : Z) (text : jsstring) (s : ChatComponent H)
  : ChatComponent H :=
  {| messages := messages s ++ [plain assistant text now];
     userInput := userInput s; isLoading := isLoading s;
     includeAudio := includeAudio s; currentSession := currentSession s;
     language := language s; history := history s;
     calls := calls s ++ [ScrollToBottom] |}.

Definition imported (file : File) : jsstring :=
  js "Imported " ++ name file ++ js " successfully.".

Definition failed (file : File) : jsstring :=
  js "Failed to import " ++ name file ++ js ".".

(** The [next] callback of the upload; [res] is [res?.success], [None]
    when the result or its field is missing. *)
Definition uploadNext (now : Z) (file : File) (res : option bool)
    (u : ChatWithUpload) : ChatWithUpload :=
  {| component :=
       pushStatus now
         (if default false res then imported file else failed file)
         (component u);
     pendingUpload := None; uploadCalls := uploadCalls u |}.

(** The [error] callback of the upload. *)
Definition uploadError (now : Z) (file : File) (u : ChatWithUpload)
  : ChatWithUpload :=
  {| component := pushStatus now (failed file) (component u);
     pendingUpload := None; uploadCalls := uploadCalls u |}.

(** What it means for a step from [u] to [u'] to do nothing to the
    conversation but append one assistant status message: the message is
    the last one, the only new call scrolls the view, and the history,
    the loading flag, the session pointer, the input text and the upload
    log are as before; no upload is pending afterwards. *)
Definition status_appended (now : Z) (text : jsstring)
    (u u' : ChatWithUpload) : Prop :=
  messages (component u')
  = messages (component u) ++ [plain assistant text now]
  ∧ new_calls (component u) (component u') = [ScrollToBottom]
  ∧ history (component u') = history (component u)
  ∧ isLoading (component u') = isLoading (component u)
  ∧ currentSession (component u') = currentSession (component u)
  ∧ userInput (component u') = userInput (component u)
  ∧ pendingUpload u' = None
  ∧ uploadCalls u' = uploadCalls u.

(** *** The component as an event machine

    What can happen to a chat component: its initialisation, typing,
    the send button, the Enter key, the two window events, the callbacks
    of a query, the clear button, the replay button, the file input and
    the callbacks of an upload. *)
Inductive Event :=
  | Init (now : Z)
  | Typed (text : jsstring)
  | Send (now : Z)
  | Enter (now : Z) (shiftKey : bool)
  | WindowEvent (now : Z) (type detail : jsstring)
  | Respond (now : Z) (query : jsstring) (o : Outcome)
  | Clear (now : Z)
  | Replay (message : ChatMessage)
  | FileSelected (file : option File)
  | UploadNext (now : Z) (file : File) (res : option bool)
  | UploadError (now : Z) (file : File).

Definition is_respond (ev : Event) : bool :=
  match ev with Respond _ _ _ => true | _ => false end.

Definition on_component (f : ChatComponent H → ChatComponent H)
    (u : ChatWithUpload) : ChatWithUpload :=
  {| component := f (component u); pendingUpload := pendingUpload u;
     uploadCalls := uploadCalls u |}.

Definition step (u : ChatWithUpload) (ev : Event) : ChatWithUpload :=
  match ev with
  | Init now => on_component (ngOnInit now) u
  | Typed text => on_component (setUserInput text) u
  | Send now => on_component (sendMessage now) u
  | Enter now shiftKey =>
      on_component (λ s, (handleEnterEvent now shiftKey s).1) u
  | WindowEvent now type detail =>
      on_component (onWindowEvent now type detail) u
  | Respond now query o => on_component (deliver now query o) u
  | Clear now => on_component (clearChat now) u
  | Replay message => on_component (playAudio message) u
  | FileSelected file => onFileSelected file u
  | UploadNext now file res => uploadNext now file res u
  | UploadError now file => uploadError now file u
  end.

Definition run (u : ChatWithUpload) (evs : list Event) : ChatWithUpload :=
  foldl step u evs.

(** The number of [create] calls made so far, and whether the component
    is still without a session (1) or has one (0). *)
Definition creates (s : ChatComponent H) : nat :=
  length (filter is_create (calls s)).

Definition without_session (s : ChatComponent H) : nat :=
  match currentSession s with Some _ => 0 | None => 1 end.

(** A handler is frugal when it keeps the sum of the [create] calls made
    and of the missing session at its value or below, and never drops a
    session. *)
Definition frugal (f : ChatComponent H → ChatComponent H) : Prop :=
  ∀ s, creates (f s) + without_session (f s) ≤ creates s + without_session s
       ∧ without_session (f s) ≤ without_session s.

(** What a handler appends to the call log: sane calls, and no query
    when it met the component loading, which it then leaves loading. *)
Definition appends (f : ChatComponent H → ChatComponent H)
    (s : ChatComponent H) : Prop :=
  ∃ l, calls (f s) = calls s ++ l
       ∧ Forall sane_call l
       ∧ (isLoading s = true →
          isLoading (f s) = true ∧ filter is_query l = []).

(** The component as constructed. *)
Definition constructed (language : jsstring) (h : H) : ChatWithUpload :=
  {| component := initial language h; pendingUpload := None;
     uploadCalls := [] |}.

End Controller.

Arguments ChatWithUpload H : clear implicits.

(** [toLowerCase] on Basic Latin, for the examples. *)
Definition asciiToLowerCase (s : jsstring) : jsstring :=
  (λ c, if ((65 <=? c) && (c <=? 90))%N then (c + 32)%N else c) <$> s.

End ChatHandlers.

(* ===================================================================== *)
(** ** app.component.ts: the events sent to the chat component            *)
(* ===================================================================== *)

Module Shell.

Import History Chat ChatHandlers.

(** A [CustomEvent]. *)
Record CustomEvent := {
  ev_type : jsstring;
  ev_detail : jsstring;
  ev_bubbles : bool;
}.

(** [new CustomEvent(type, { detail })]: the dictionary does not set
    [bubbles], whose default is false. *)
Definition newCustomEvent (type detail : jsstring) : CustomEvent :=
  {| ev_type := type; ev_detail := detail; ev_bubbles := false |}.

(** Where an event is dispatched: on the window, or on an element of the
    document. *)
Inductive EventTarget := Window | Element (selector : jsstring).

(** Whether the dispatch of an event on [target] runs a listener that
    was added to the window with [addEventListener(type, f)], without the
    capture option: at the target always, on the way up from an element
    only when the event bubbles. *)
Definition runs_window_listener (target : EventTarget) (ev : CustomEvent)
  : bool :=
  match target with
  | Window => true
  | Element _ => ev_bubbles ev
  end.

Section Page.

Context {H : Type} `{HistoryService H}.

(** The page: the application component and, when the document has an
    [app-chat] element, the chat component behind it. *)
Record Page := {
  app : App.AppComponent;
  chat : option (ChatComponent H);
}.

(** [target.dispatchEvent(ev)], as far as the chat component is
    concerned. *)
Definition dispatchEvent (now : Z) (target : EventTarget) (ev : CustomEvent)
    (c : ChatComponent H) : ChatComponent H :=
  if runs_window_listener target ev
  then onWindowEvent now (ev_type ev) (ev_detail ev) c
  else c.

(** [AppComponent.suggestQuestion(question)] *)
Definition suggestQuestion (now : Z) (question : jsstring) (p : Page)
  : Page :=
  match chat p with
  | Some c =>
      let event := newCustomEvent (js "suggestQuestion") question in
      {| app := app p;
         chat := Some (dispatchEvent now (Element (js "app-chat")) event c) |}
  | None => p
  end.

(** [AppComponent.openSession(sessionId)] *)
Definition openSession (now : Z) (sessionId : jsstring) (p : Page) : Page :=
  let chat' :=
    match chat p with
    | Some c =>
        let event := newCustomEvent (js "loadSession") sessionId in
        Some (dispatchEvent now (Element (js "app-chat")) event c)
    | None => None
    end in
  {| app := {| App.showHistory := false;
               App.sessions := App.sessions (app p) |};
     chat := chat' |}.

End Page.

Arguments Page H : clear implicits.

End Shell.

(* ===================================================================== *)
(** ** charts.component.ts: the capitals of a key                         *)
(* ===================================================================== *)

Module Labels.

(** The code units that the class [A-Z] of [formatLabel] matches. *)
Definition is_capital (c : N) : bool := ((65 <=? c) && (c <=? 90))%N.

End Labels.

(* ===================================================================== *)
(** ** More example data                                                  *)
(* ===================================================================== *)

Module MoreExamples.

Import Charts Examples.

(** The component of the example view, before its first render. *)
Definition equipment_component : ChartsComponent :=
  {| data := equipment_example; type := pie; title := js "Equipment";
     chartId := js "status"; chartInstance := None |}.

Import History Chat ChatHandlers.

(** A successful response with audio. *)
Definition good_answer : QueryResponse :=
  {| success := true;
     response :=
       {| answer := js "All equipment is operational.";
          resp_visualizations := None; resp_recommendations := None;
          resp_audio :=
            Some {| audio_success := true;
                    audio_base64 := Some (js "UklGRg==") |} |} |}.

(** The message that the response above becomes. *)
Definition spoken : ChatMessage :=
  {| role := assistant; content := js "All equipment is operational.";
     timestamp := 300; visualizations := None; recommendations := None;
     audio :=
       Some {| audio_success := true;
               audio_base64 := Some (js "UklGRg==") |} |}.

(** The first question, sent and waiting for its answer, and the session
    that the store then holds for it. *)
Definition asked : ChatComponent Store := sendMessage 200 first_question.

Definition stored_session : ChatSession :=
  default first_session (load (js "s") (history asked)).

(** A file, and a chat that was opened and shows its greeting. *)
Definition report : File := {| name := js "Report.CSV" |}.

Definition opened : ChatWithUpload Store :=
  run asciiToLowerCase (constructed (js "en") empty_store) [Init 100].

(** A day at the chat: a question that fails, a second question, an
    upload, a clear, a key press. *)
Definition a_day : list Event :=
  [ Init 100; Typed (js "Show equipment status"); Send 200;
    Respond 300 (js "Show equipment status") TransportError;
    Typed (js "And production?"); Enter 400 false;
    FileSelected (Some report); UploadNext 450 report (Some true);
    Respond 500 (js "And production?") (Next good_answer);
    Clear 600; WindowEvent 700 (js "suggestQuestion") (js "Any incidents?") ].

(** The component waiting for the answer to the first question, and an
    impatient user. *)
Definition waiting : ChatWithUpload Store :=
  {| component := asked; pendingUpload := None; uploadCalls := [] |}.

Definition impatience : list Event :=
  [ Typed (js "Hello?"); Send 210; Enter 220 false;
    WindowEvent 230 (js "suggestQuestion") (js "Any incidents?");
    Clear 240; FileSelected (Some report); UploadError 250 report ].

End MoreExamples.

#[local] Set Warnings "-clear-no-such-hyp".

Module JSFacts.

Lemma trimStart_nil_iff (s : jsstring) :
  trimStart s = [] ↔ Forall is_white_space s.
Proof.
  induction s as [|c s IH]; simpl.
  - split; [constructor | done].
  - destruct (is_white_space c) eqn:Hc.
    + rewrite IH. split.
      * intros Hs. constructor; [by rewrite Hc | done].
      * by inversion 1.
    + split; [done |]. inversion 1 as [|? ? Hw]. by rewrite Hc in Hw.
Qed.

Lemma trimStart_Forall (s : jsstring) :
  Forall is_white_space (trimStart s) → Forall is_white_space s.
Proof.
  induction s as [|c s IH]; simpl; [done |].
  destruct (is_white_space c) eqn:Hc; [| done].
  intros Hs. constructor; [by rewrite Hc | auto].
Qed.

(** [s.trim()] is empty exactly when every code unit of [s] is white
    space (the empty string included). *)
Lemma trim_nil_iff (s : jsstring) :
  trim s = [] ↔ Forall is_white_space s.
Proof.
  unfold trim, trimEnd. split.
  - intros Ht. apply trimStart_Forall.
    apply (f_equal reverse) in Ht. rewrite reverse_involutive in Ht.
    rewrite reverse_nil in Ht.
    rewrite trimStart_nil_iff, Forall_reverse in Ht. exact Ht.
  - intros Hs. rewrite <- trimStart_nil_iff in Hs. rewrite Hs. reflexivity.
Qed.

Lemma blank_iff (s : jsstring) :
  truthy_string (trim s) = false ↔ Forall is_white_space s.
Proof.
  rewrite <- trim_nil_iff. destruct (trim s); simpl; split; done.
Qed.

Lemma or_else_truthy (a b : value) : truthy a = true → a ||| b = a.
Proof. unfold or_else. by intros ->. Qed.

Lemma or_else_falsy (a b : value) : truthy a = false → a ||| b = b.
Proof. unfold or_else. by intros ->. Qed.

(** A property that the object does not have is read from its
    prototype. *)
Lemma get_absent (d : record) (k : jsstring) :
  has d k = false → get d k = inherited k.
Proof.
  unfold has. rewrite bool_decide_eq_false.
  induction d as [|[k' v] d IH]; simpl; [done |].
  intros Hk. case_decide as Hd.
  - exfalso. apply Hk. subst. left.
  - apply IH. intros Hin. apply Hk. by right.
Qed.

End JSFacts.

Module WordingFacts.

Import Wording JSFacts.

(** A chain [d.k1 || d.k2 || ... || dflt] picks the first truthy field. *)
Lemma or_chain_first_truthy
    (ks : list jsstring) (d : record) (acc dflt : value) :
  truthy acc = false →
  foldl (λ a k, a ||| get d k) acc ks ||| dflt = first_truthy ks d dflt.
Proof.
  revert acc. induction ks as [|k ks IH]; intros acc Hacc; simpl.
  - by apply or_else_falsy.
  - rewrite (or_else_falsy acc) by done.
    destruct (truthy (get d k)) eqn:Hk; [| by apply IH].
    clear IH Hacc. generalize (get d k) Hk. clear Hk.
    induction ks as [|k' ks IH]; intros v Hv; simpl.
    + by apply or_else_truthy.
    + rewrite (or_else_truthy v) by done. by apply IH.
Qed.

(** On a record whose listed fields are truthy whenever it has them, the
    first present field and the first truthy field are the same, for
    fields that [Object.prototype] does not have. *)
Lemma first_present_truthy (ks : list jsstring) (d : record) (dflt : value) :
  (∀ k, k ∈ ks → k ∉ object_prototype_keys) →
  (∀ k, k ∈ ks → has d k = true → truthy (get d k) = true) →
  first_present ks d dflt = first_truthy ks d dflt.
Proof.
  induction ks as [|k ks IH]; intros Hown Hks; simpl; [done |].
  destruct (has d k) eqn:Hh.
  - rewrite Hks; [done | left | done].
  - rewrite (get_absent d k Hh). unfold inherited.
    rewrite bool_decide_false by (apply Hown; left). simpl. apply IH.
    + intros k' Hin. apply Hown. by right.
    + intros k' Hin. apply Hks. by right.
Qed.

Lemma elem_of_dedup (l : list value) (v : value) : v ∈ dedup l ↔ v ∈ l.
Proof.
  induction l as [|w l IH]; simpl; [done |].
  rewrite !elem_of_cons, list_elem_of_filter, IH.
  destruct (decide (v = w)); naive_solver.
Qed.

Lemma NoDup_dedup (l : list value) : NoDup (dedup l).
Proof.
  induction l as [|w l IH]; simpl; [constructor |].
  constructor.
  - rewrite list_elem_of_filter. naive_solver.
  - by apply NoDup_filter.
Qed.

(** Inserting into a Set one by one keeps the first occurrences. *)
Lemma foldl_set_add (l acc : list value) :
  foldl set_add acc l = acc ++ filter (λ w, w ∉ acc) (dedup l).
Proof.
  revert acc. induction l as [|v l IH]; intros acc; simpl.
  - by rewrite filter_nil, app_nil_r.
  - rewrite IH. unfold set_add. case_decide as Hv.
    + rewrite filter_cons_False by naive_solver.
      f_equal. symmetry. apply list_filter_filter_l. naive_solver.
    + rewrite filter_cons_True by done.
      rewrite <- app_assoc. simpl. do 2 f_equal.
      rewrite list_filter_filter. apply list_filter_iff.
      intros w. rewrite elem_of_app, list_elem_of_singleton. naive_solver.
Qed.

Lemma array_from_set_dedup (l : list value) : array_from_set l = dedup l.
Proof.
  unfold array_from_set. rewrite foldl_set_add. simpl.
  induction (dedup l) as [|x k IH]; [done |].
  rewrite filter_cons_True by apply not_elem_of_nil. by f_equal.
Qed.

End WordingFacts.

(* ===================================================================== *)
(** ** Numbers of the hue                                                 *)
(* ===================================================================== *)

Module NumberFacts.

Import Charts.







End NumberFacts.

(* ===================================================================== *)
(** ** The chart renderer: labels, series and colours                     *)
(* ===================================================================== *)

Module ChartsFacts.

Import Charts Wording JSFacts WordingFacts Examples.

Lemma pieLabel_first_truthy (d : record) :
  pieLabel d = first_truthy category_keys d (VStr (js "Unknown")).
Proof.
  exact (or_chain_first_truthy category_keys d VUndefined _ eq_refl).
Qed.

Lemma pieValue_first_truthy (d : record) :
  pieValue d = first_truthy amount_keys d (VNum 0).
Proof.
  exact (or_chain_first_truthy amount_keys d VUndefined _ eq_refl).
Qed.

Lemma seriesLabel_first_truthy (d : record) :
  seriesLabel d = first_truthy period_keys d (VStr []).
Proof.
  exact (or_chain_first_truthy period_keys d VUndefined _ eq_refl).
Qed.

Lemma isNumericField_spec (k : jsstring) :
  isNumericField k ↔ k ∉ period_keys ++ [js "label"].
Proof.
  unfold isNumericField, period_keys.
  rewrite !andb_True, !bool_decide_spec. simpl.
  rewrite !not_elem_of_cons. pose proof (not_elem_of_nil k). tauto.
Qed.

Section Render.

Variable toUpperCase : jsstring → jsstring.

(** C4, as the code has it.  For every record array, a pie or doughnut
    chart has exactly one series; its i-th label is the first TRUTHY of
    the fields status, type, name, label of record i ("Unknown" when
    there is none) and its i-th value the first truthy of count, value,
    percentage (0 when there is none).  The two example records give the
    labels Operational, Critical and the series 45, 2. *)
Theorem categorical_chart_first_truthy (type : ChartType) (data : list record) :
  type = pie ∨ type = doughnut →
  let cd := chartData toUpperCase type data in
  labels cd
    = (λ d, first_truthy category_keys d (VStr (js "Unknown"))) <$> data
  ∧ dataset_data <$> datasets cd
    = [ (λ d, first_truthy amount_keys d (VNum 0)) <$> data ]
  ∧ labels (chartData toUpperCase type equipment_example)
    = [VStr (js "Operational"); VStr (js "Critical")]
  ∧ dataset_data <$> datasets (chartData toUpperCase type equipment_example)
    = [ [VNum 45; VNum 2] ].
Proof.
  intros Ht cd.
  assert (Hb : bool_decide (type = pie) || bool_decide (type = doughnut)
               = true).
  { destruct Ht; subst; reflexivity. }
  subst cd. unfold chartData. rewrite Hb. simpl.
  repeat split.
  - apply list_fmap_ext. intros _ d _. apply pieLabel_first_truthy.
  - f_equal. apply list_fmap_ext. intros _ d _. apply pieValue_first_truthy.
Qed.

(** C5, as the code has it.  For a non-empty record array, a line or bar
    chart has as labels the deduplicated, order-preserving sequence of
    the first TRUTHY of month, date, period of each record (the empty
    string when there is none), falsy values removed; it has one series
    per key of the first record other than month, date, period and
    label, in key order, named by [formatLabel] of the key, whose i-th
    value is what [d[key]] reads on record i (its own property, or else
    the property of [Object.prototype] of that name) when that is truthy
    and 0 otherwise.  The two example records give the labels Jan, Feb
    and one series, Production, with the values 12000, 13500; a key
    constructor of the first record reads as the built-in constructor
    on a record that lacks it. *)
Theorem series_chart_first_truthy
    (type : ChartType) (d0 : record) (rest : list record) :
  type = line ∨ type = bar →
  let data := d0 :: rest in
  let cd := chartData toUpperCase type data in
  let series_keys :=
    filter (λ k, k ∉ period_keys ++ [js "label"]) (keys d0) in
  labels cd
    = filter truthy
        (dedup ((λ d, first_truthy period_keys d (VStr [])) <$> data))
  ∧ NoDup (labels cd)
  ∧ dataset_label <$> datasets cd
    = (λ k, Some (formatLabel toUpperCase k)) <$> series_keys
  ∧ dataset_data <$> datasets cd
    = (λ k, (λ d, first_truthy [k] d (VNum 0)) <$> data) <$> series_keys
  ∧ labels (chartData toUpperCase type production_example)
    = [VStr (js "Jan"); VStr (js "Feb")]
  ∧ dataset_data <$> datasets (chartData toUpperCase type production_example)
    = [ [VNum 12000; VNum 13500] ]
  ∧ dataset_label <$> datasets (chartData toUpperCase type production_example)
    = [ Some (formatLabel toUpperCase (js "production")) ]
  ∧ dataset_data <$> datasets (chartData toUpperCase type inherited_example)
    = [ [VNum 1; VBuiltin (js "constructor")] ].
Proof.
  intros Ht data cd series_keys.
  assert (Hb : bool_decide (type = pie) || bool_decide (type = doughnut)
               = false).
  { destruct Ht; subst; reflexivity. }
  assert (Hl : labels cd
    = filter truthy
        (dedup ((λ d, first_truthy period_keys d (VStr [])) <$> data))).
  { subst cd. unfold chartData. rewrite Hb. cbn [labels].
    rewrite array_from_set_dedup. do 2 f_equal.
    apply list_fmap_ext. intros _ d _. apply seriesLabel_first_truthy. }
  assert (Hk : filter isNumericField (keys d0) = series_keys).
  { apply list_filter_iff. intros k. apply isNumericField_spec. }
  split; [exact Hl |]. split.
  { rewrite Hl. apply NoDup_filter, NoDup_dedup. }
  subst cd. unfold chartData. rewrite Hb. cbn [datasets].
  replace (default [] (data !! 0)) with d0 by done. rewrite Hk.
  repeat split.
  - rewrite fmap_imap. apply imap_const.
  - rewrite fmap_imap. rewrite <- (imap_const _ series_keys).
    apply imap_ext. intros i k _. unfold compose. cbn [dataset_data].
    apply list_fmap_ext. intros _ d _. unfold or_else. simpl.
    by destruct (truthy (get d k)).
Qed.


End Render.

Example formatLabel_production :
  formatLabel asciiToUpperCase (js "production") = js "Production"
  ∧ formatLabel asciiToUpperCase (js "avgEfficiency") = js "Avg Efficiency".
Proof. split; reflexivity. Qed.

Lemma categorical_chart_witness :
  (doughnut = pie ∨ doughnut = doughnut)
  ∧ labels (chartData asciiToUpperCase doughnut equipment_example)
    = [VStr (js "Operational"); VStr (js "Critical")].
Proof.
  split; [by right |].
  apply (categorical_chart_first_truthy asciiToUpperCase doughnut
           equipment_example).
  by right.
Defined.

Lemma series_chart_witness :
  (bar = line ∨ bar = bar)
  ∧ dataset_data
      <$> datasets (chartData asciiToUpperCase bar production_example)
    = [ [VNum 12000; VNum 13500] ].
Proof.
  split; [by right |].
  apply (series_chart_first_truthy asciiToUpperCase bar
           [ (js "month", VStr (js "Jan")); (js "production", VNum 12000) ]
           [ [ (js "month", VStr (js "Feb"));
               (js "production", VNum 13500) ] ]).
  by right.
Defined.

(** C4 as worded fails.  On the record [{count: 0, value: 5}] the field
    count is present, so the first present of count, value, percentage
    is 0, but the chart plots 5; on [{status: "", type: "Pump"}] the
    first present label field is the empty string, but the label is
    Pump. *)
Lemma categorical_first_present_fails :
  let zero_count := [ [ (js "count", VNum 0); (js "value", VNum 5) ] ] in
  let empty_status :=
    [ [ (js "status", VStr []); (js "type", VStr (js "Pump")) ] ] in
  dataset_data <$> datasets (chartData asciiToUpperCase pie zero_count)
    = [ [VNum 5] ]
  ∧ worded_pie_values zero_count = [VNum 0]
  ∧ labels (chartData asciiToUpperCase pie empty_status)
    = [VStr (js "Pump")]
  ∧ worded_pie_labels empty_status = [VStr []].
Proof. vm_compute. repeat split. Qed.

(** C5 as worded fails.  On the one record
    [{month: "", date: "D1", label: "x", production: 1, downtime: null}]
    the first present of month, date, period is the empty string, which
    is falsy and so gives no label; the keys other than the label keys
    month, date, period are label, production and downtime; and the
    field downtime is not absent.  The chart has the label D1, no series
    for label, and 0 as the value of downtime.  On
    [{month: "Jan", constructor: 1}, {month: "Feb"}] the field
    constructor is absent from the second record, for which the chart
    plots the built-in constructor that the record inherits, not 0. *)
Lemma series_first_present_fails :
  let data :=
    [ [ (js "month", VStr []); (js "date", VStr (js "D1"));
        (js "label", VStr (js "x")); (js "production", VNum 1);
        (js "downtime", VNull) ] ] in
  labels (chartData asciiToUpperCase line data) = [VStr (js "D1")]
  ∧ worded_series_labels data = []
  ∧ dataset_label <$> datasets (chartData asciiToUpperCase line data)
    = [Some (js "Production"); Some (js "Downtime")]
  ∧ worded_series_keys data = [js "label"; js "production"; js "downtime"]
  ∧ dataset_data <$> datasets (chartData asciiToUpperCase line data)
    = [ [VNum 1]; [VNum 0] ]
  ∧ worded_series_values (js "downtime") data = [VNull]
  ∧ dataset_data
      <$> datasets (chartData asciiToUpperCase line inherited_example)
    = [ [VNum 1; VBuiltin (js "constructor")] ]
  ∧ worded_series_values (js "constructor") inherited_example
    = [VNum 1; VNum 0].
Proof. vm_compute. repeat split. Qed.

End ChartsFacts.

(* ===================================================================== *)
(** ** The chart renderer: one live chart per surface                     *)
(* ===================================================================== *)

Module EngineFacts.

Import Charts Examples.

Lemma live_on_destroy (canvas : Canvas) (h : nat) (e : Engine) :
  live_on canvas (destroy h e)
  = filter (λ ch, chart_id ch ≠ h) (live_on canvas e).
Proof.
  unfold live_on, destroy. simpl. rewrite !list_filter_filter.
  apply list_filter_iff. tauto.
Qed.

Lemma destroy_at_most_one (h : nat) (e : Engine) :
  at_most_one_live e → at_most_one_live (destroy h e).
Proof.
  intros He canvas. rewrite live_on_destroy.
  etrans; [apply length_filter | apply He].
Qed.

Lemma destroy_not_live (h : nat) (e : Engine) :
  h ∉ chart_id <$> instances (destroy h e).
Proof.
  rewrite list_elem_of_fmap. intros [ch [-> Hin]].
  apply list_elem_of_filter in Hin. by destruct Hin.
Qed.

Lemma destroy_keeps_dead (h h' : nat) (e : Engine) :
  h ∉ chart_id <$> instances e →
  h ∉ chart_id <$> instances (destroy h' e).
Proof.
  rewrite !list_elem_of_fmap. intros Hn [ch [-> Hin]]. apply Hn.
  apply list_elem_of_filter in Hin. exists ch. by destruct Hin.
Qed.

(** Destroying what the registry has for a surface empties the surface,
    when at most one chart was bound to it. *)
Lemma destroy_registered (canvas : Canvas) (e : Engine) :
  at_most_one_live e →
  live_on canvas
    (match getChart canvas e with
     | Some existingChart => destroy (chart_id existingChart) e
     | None => e
     end) = [].
Proof.
  intros He. unfold getChart. specialize (He canvas).
  destruct (live_on canvas e) as [|ch [|ch' l]] eqn:Hl; simpl in *.
  - exact Hl.
  - rewrite live_on_destroy, Hl.
    by rewrite filter_cons_False, filter_nil by auto.
  - lia.
Qed.

Lemma live_on_newChart (cv canvas : Canvas) (cfg : ChartConfig) (e : Engine) :
  live_on cv (newChart canvas cfg e).2
  = live_on cv e
    ++ (if decide (canvas = cv)
        then [ {| chart_id := next_id e; chart_canvas := canvas;
                  chart_config := cfg |} ]
        else []).
Proof.
  unfold live_on, newChart. simpl. rewrite filter_app. f_equal.
Qed.

Lemma destroyExisting_spec
    (canvas : Canvas) (c : ChartsComponent) (e : Engine) :
  chartInstance (destroyExisting canvas c e).1 = None
  ∧ (∀ h, chartInstance c = Some h →
          h ∉ chart_id <$> instances (destroyExisting canvas c e).2)
  ∧ (at_most_one_live e →
     at_most_one_live (destroyExisting canvas c e).2
     ∧ live_on canvas (destroyExisting canvas c e).2 = []).
Proof.
  unfold destroyExisting.
  destruct (chartInstance c) as [h|] eqn:Hc; simpl.
  - split; [done |]. split.
    + intros h' [= <-]. destruct (getChart canvas (destroy h e)).
      * apply destroy_keeps_dead, destroy_not_live.
      * apply destroy_not_live.
    + intros He. apply (destroy_at_most_one h) in He. split.
      * destruct (getChart canvas (destroy h e));
          [by apply destroy_at_most_one | done].
      * by apply destroy_registered.
  - split; [done |]. split; [done |]. intros He. split.
    + destruct (getChart canvas e); [by apply destroy_at_most_one | done].
    + by apply destroy_registered.
Qed.

Section Render.

Variable toUpperCase : jsstring → jsstring.

Lemma renderChart_surface (doc : Document) (c : ChartsComponent) (e : Engine) :
  renderChart toUpperCase doc c e
  = match surface doc c with
    | None => (c, e)
    | Some canvas =>
        let '(c1, e1) := destroyExisting canvas c e in
        let '(h, e2) :=
          newChart canvas
            {| cfg_type := type c1;
               cfg_data := chartData toUpperCase (type c1) (data c1);
               cfg_options := getChartOptions (type c1) (title c1) |} e1 in
        (set_chartInstance (Some h) c1, e2)
    end.
Proof. reflexivity. Qed.

Lemma renderChart_found (doc : Document) (c : ChartsComponent) (e : Engine)
    (canvas : Canvas) :
  surface doc c = Some canvas →
  at_most_one_live e →
  at_most_one_live (renderChart toUpperCase doc c e).2
  ∧ ∃ ch, live_on canvas (renderChart toUpperCase doc c e).2 = [ch]
          ∧ chartInstance (renderChart toUpperCase doc c e).1
            = Some (chart_id ch).
Proof.
  intros Hs He. rewrite renderChart_surface, Hs.
  destruct (destroyExisting_spec canvas c e) as (_ & _ & Hd).
  destruct (Hd He) as [He1 Hl1]. clear Hd.
  destruct (destroyExisting canvas c e) as [c1 e1]. simpl in *.
  split.
  - intros cv.
    change (length (live_on cv (newChart canvas
      {| cfg_type := type c1;
         cfg_data := chartData toUpperCase (type c1) (data c1);
         cfg_options := getChartOptions (type c1) (title c1) |} e1).2) ≤ 1).
    rewrite live_on_newChart.
    rewrite length_app. case_decide as Hcv; simpl.
    + subst cv. rewrite Hl1. simpl. lia.
    + specialize (He1 cv). lia.
  - exists {| chart_id := next_id e1; chart_canvas := canvas;
               chart_config :=
                 {| cfg_type := type c1;
                    cfg_data := chartData toUpperCase (type c1) (data c1);
                    cfg_options := getChartOptions (type c1) (title c1) |} |}.
    split; [| reflexivity].
    unfold live_on in *. simpl. rewrite filter_app, Hl1.
    rewrite filter_cons_True by done. reflexivity.
Qed.

Lemma renderChart_at_most_one (doc : Document) (c : ChartsComponent)
    (e : Engine) :
  at_most_one_live e → at_most_one_live (renderChart toUpperCase doc c e).2.
Proof.
  intros He. destruct (surface doc c) as [canvas|] eqn:Hs.
  - by apply (renderChart_found doc c e canvas).
  - by rewrite renderChart_surface, Hs.
Qed.

Lemma view_step_at_most_one (v : View) (ev : ViewEvent) :
  at_most_one_live (engine v) →
  at_most_one_live (engine (view_step toUpperCase v ev)).
Proof.
  intros He. destruct ev as [i d t ti ci | i | i | doc]; simpl; try done.
  - destruct (components v !! i) as [c|]; [| done].
    pose proof (renderChart_at_most_one (document v) c (engine v) He) as Hr.
    by destruct (renderChart toUpperCase (document v) c (engine v)).
  - destruct (components v !! i) as [c|]; [| done].
    unfold ngOnDestroy.
    destruct (chartInstance c); simpl; [by apply destroy_at_most_one | done].
Qed.

Lemma destroyExisting_subset
    (canvas : Canvas) (c : ChartsComponent) (e : Engine) (ch : Chart) :
  ch ∈ instances (destroyExisting canvas c e).2 → ch ∈ instances e.
Proof.
  unfold destroyExisting.
  destruct (chartInstance c) as [h|]; simpl.
  - destruct (getChart canvas (destroy h e)); simpl;
      rewrite ?list_elem_of_filter; tauto.
  - destruct (getChart canvas e); simpl;
      rewrite ?list_elem_of_filter; tauto.
Qed.

(** What a render that found its canvas leaves live: the new chart, and
    of the old charts only such as are bound to another surface and are
    not the chart of the component's old handle. *)
Lemma renderChart_survivors (doc : Document) (c : ChartsComponent)
    (e : Engine) (canvas : Canvas) :
  surface doc c = Some canvas →
  at_most_one_live e →
  ∃ new,
    live_on canvas (renderChart toUpperCase doc c e).2 = [new]
    ∧ chartInstance (renderChart toUpperCase doc c e).1
      = Some (chart_id new)
    ∧ chart_id new = next_id e
    ∧ ∀ ch, ch ∈ instances (renderChart toUpperCase doc c e).2 →
        ch = new
        ∨ (ch ∈ instances e
           ∧ chart_canvas ch ≠ canvas
           ∧ ∀ h, chartInstance c = Some h → chart_id ch ≠ h).
Proof.
  intros Hs He. rewrite renderChart_surface, Hs.
  destruct (destroyExisting_spec canvas c e) as (_ & Hh & Hd).
  destruct (Hd He) as [_ Hl1]. clear Hd.
  pose proof (destroyExisting_subset canvas c e) as Hsub.
  assert (Hn : next_id (destroyExisting canvas c e).2 = next_id e).
  { unfold destroyExisting. destruct (chartInstance c) as [h|]; simpl.
    - by destruct (getChart canvas (destroy h e)).
    - by destruct (getChart canvas e). }
  destruct (destroyExisting canvas c e) as [c1 e1]. simpl in *.
  exists {| chart_id := next_id e1; chart_canvas := canvas;
            chart_config :=
              {| cfg_type := type c1;
                 cfg_data := chartData toUpperCase (type c1) (data c1);
                 cfg_options := getChartOptions (type c1) (title c1) |} |}.
  split; [| split; [reflexivity | split; [exact Hn |]]].
  - unfold live_on in *. simpl. rewrite filter_app, Hl1.
    rewrite filter_cons_True by done. reflexivity.
  - intros ch [Hch | Hch%list_elem_of_singleton]%elem_of_app; [| by left].
    right. split; [by apply Hsub |]. split.
    + intros Hcv.
      assert (Hin : ch ∈ live_on canvas e1).
      { unfold live_on. by apply list_elem_of_filter. }
      rewrite Hl1 in Hin. by apply elem_of_nil in Hin.
    + intros h Hc Hid. apply (Hh h Hc).
      apply list_elem_of_fmap. by exists ch.
Qed.

(** C6.  From a view in which at most one live chart is bound to each
    surface, every sequence of bindings, renders, removals and document
    changes (a render may follow the removal of its component) leads to
    a view with the same property.  At any view so reached, a render
    that finds its canvas leaves exactly one live chart on it, the new
    one, which the component's handle names; whatever else is live
    afterwards was live before, is bound to another surface, and is not
    the chart of the handle the component had: that chart, and the
    chart that the registry had for the surface, are destroyed. *)
Theorem one_live_chart_per_surface
    (v : View) (evs : list ViewEvent) (c : ChartsComponent) (canvas : Canvas) :
  at_most_one_live (engine v) →
  let v' := view_run toUpperCase v evs in
  at_most_one_live (engine v')
  ∧ (surface (document v') c = Some canvas →
     ∃ new,
       live_on canvas
         (renderChart toUpperCase (document v') c (engine v')).2 = [new]
       ∧ chartInstance
           (renderChart toUpperCase (document v') c (engine v')).1
         = Some (chart_id new)
       ∧ chart_id new = next_id (engine v')
       ∧ ∀ ch,
           ch ∈ instances
                  (renderChart toUpperCase (document v') c (engine v')).2 →
           ch = new
           ∨ (ch ∈ instances (engine v')
              ∧ chart_canvas ch ≠ canvas
              ∧ ∀ h, chartInstance c = Some h → chart_id ch ≠ h)).
Proof.
  intros He v'.
  assert (He' : at_most_one_live (engine v')).
  { subst v'. unfold view_run. revert v He.
    induction evs as [|ev evs IH]; intros v He; simpl; [done |].
    apply IH. by apply view_step_at_most_one. }
  split; [exact He' |].
  intros Hs. by apply renderChart_survivors.
Qed.

End Render.

Lemma example_view_at_most_one : at_most_one_live (engine example_view).
Proof. intros canvas. simpl. lia. Qed.

(** Rendering twice on the surface leaves one live chart, the second. *)
Example render_twice :
  chart_id
    <$> live_on 7 (engine (view_run asciiToUpperCase example_view
                             [Render 0; Render 0]))
  = [1].
Proof. vm_compute. reflexivity. Qed.

Lemma one_live_chart_witness :
  at_most_one_live (engine example_view)
  ∧ at_most_one_live
      (engine (view_run asciiToUpperCase example_view
                 [Render 0; Bind 1 [] line [] (js "status"); Render 1;
                  Render 0])).
Proof.
  split; [exact example_view_at_most_one |].
  apply (one_live_chart_per_surface asciiToUpperCase example_view
           [Render 0; Bind 1 [] line [] (js "status"); Render 1; Render 0]
           {| data := []; type := line; title := []; chartId := [];
              chartInstance := None |} 7).
  exact example_view_at_most_one.
Defined.

End EngineFacts.

(* ===================================================================== *)
(** ** The conversation controller                                        *)
(* ===================================================================== *)

Module ChatFacts.

Import History Chat JSFacts.

Section Controller.

Context {H : Type} `{HistoryService H}.

Implicit Types s : ChatComponent H.

(** What an accepted [sendMessage] does, in one equation. *)
Lemma sendMessage_accepted now s :
  accepted s →
  let userMessage := plain user (userInput s) now in
  let session := (target now s).1 in
  let h1 :=
    appendMessage now (id session) (to_record userMessage) (target now s).2 in
  let first := bool_decide (length (messages s) = 1) in
  sendMessage now s
  = {| messages := messages s ++ [userMessage];
       userInput := []; isLoading := true;
       includeAudio := includeAudio s;
       currentSession := Some session;
       language := language s;
       history :=
         if first
         then rename now (id session) (substring0 30 (userInput s)) h1
         else h1;
       calls :=
         calls s
         ++ match currentSession s with
            | Some _ => []
            | None => [HistoryCreate (userInput s) (language s)]
            end
         ++ [HistoryAppendMessage (id session) (to_record userMessage)]
         ++ (if first
             then [HistoryRename (id session)
                     (substring0 30 (userInput s))]
             else [])
         ++ [SendQuery (userInput s) (language s) (includeAudio s)] |}.
Proof.
  intros [Hin Hl]. unfold sendMessage, target. rewrite Hin, Hl. simpl.
  rewrite length_app. simpl.
  rewrite (bool_decide_ext (length (messages s) + 1 = 2)
             (length (messages s) = 1)) by lia.
  destruct (currentSession s) as [cs|].
  - simpl. case_bool_decide; simpl; by rewrite <- ?app_assoc.
  - destruct (create now (userInput s) (language s) (history s)) as [cs h].
    simpl. case_bool_decide; simpl; by rewrite <- ?app_assoc.
Qed.

Lemma sendMessage_rejected now s : ¬ accepted s → sendMessage now s = s.
Proof.
  unfold accepted, sendMessage. intros Hn.
  destruct (truthy_string (trim (userInput s))), (isLoading s); simpl; try done.
  by destruct Hn.
Qed.

(** C1.  When an accepted submission ends in a transport failure, the
    message list is the old one followed by the user's message and one
    more message, the fallback: an assistant message that carries the
    locally built sample visualizations.  The component is not loading
    afterwards.  (The error callback alone, run in any state, appends
    that one message and clears the flag.) *)
Theorem submit_transport_failure (t0 t1 : Z) s :
  accepted s →
  let s' := submit t0 t1 TransportError s in
  messages s'
  = messages s
    ++ [plain user (userInput s) t0; fallbackMessage t1 (userInput s)]
  ∧ length (messages s') = length (messages s) + 2
  ∧ role (fallbackMessage t1 (userInput s)) = assistant
  ∧ visualizations (fallbackMessage t1 (userInput s))
    = Some sample_visualizations
  ∧ isLoading s' = false
  ∧ (∀ t q s0, messages (onError t q s0)
               = messages s0 ++ [fallbackMessage t q]
               ∧ isLoading (onError t q s0) = false).
Proof.
  intros Ha s'.
  assert (Hm : messages s'
    = messages s
      ++ [plain user (userInput s) t0; fallbackMessage t1 (userInput s)]).
  { subst s'. unfold submit. destruct Ha as [Hin Hl]. rewrite Hin, Hl. simpl.
    rewrite (sendMessage_accepted t0 s) by done. simpl.
    by rewrite <- app_assoc. }
  split; [exact Hm |]. split; [rewrite Hm, length_app; simpl; lia |].
  repeat split.
  subst s'. unfold submit. destruct Ha as [Hin Hl]. by rewrite Hin, Hl.
Qed.

(** C2.  In every state, [sendMessage] with an input that is empty or
    all white space, or while a request is in flight, returns the state
    unchanged: the message list, the session pointer, the loading flag,
    the input text, the history service and the call log are as before;
    no query is sent. *)
Theorem submit_rejected (t0 t1 : Z) (o : Outcome) s :
  Forall is_white_space (userInput s) ∨ isLoading s = true →
  sendMessage t0 s = s
  ∧ submit t0 t1 o s = s
  ∧ filter is_query (new_calls s (sendMessage t0 s)) = [].
Proof.
  intros Hr.
  assert (Hg : negb (truthy_string (trim (userInput s))) || isLoading s = true).
  { destruct Hr as [Hb | Hl].
    - apply blank_iff in Hb. by rewrite Hb.
    - rewrite Hl. by destruct (truthy_string _). }
  assert (Hs : sendMessage t0 s = s).
  { unfold sendMessage. by rewrite Hg. }
  split; [exact Hs |]. split.
  - unfold submit. by rewrite Hg.
  - rewrite Hs. unfold new_calls. by rewrite drop_all.
Qed.


(** C9.  Neither failure outcome touches the history service: after the
    [next] callback with [success] false, and after the [error]
    callback, its state is the one before the callback, so a failed
    submission leaves it as [sendMessage] left it, with the user's
    message persisted and nothing more. *)
Theorem failure_not_persisted (t0 t1 : Z) (q : jsstring) (o : Outcome) s :
  (o = TransportError ∨ ∃ r, o = Next r ∧ success r = false) →
  history (deliver t1 q o s) = history s
  ∧ new_calls s (deliver t1 q o s) = [ScrollToBottom]
  ∧ history (submit t0 t1 o s) = history (sendMessage t0 s).
Proof.
  intros Ho.
  assert (Hd : ∀ s0, history (deliver t1 q o s0) = history s0
                     ∧ new_calls s0 (deliver t1 q o s0) = [ScrollToBottom]).
  { intros s0. unfold new_calls.
    destruct Ho as [-> | (r & -> & Hr)]; simpl.
    - by rewrite drop_app_length.
    - unfold onNext. rewrite Hr. simpl. by rewrite drop_app_length. }
  split; [apply Hd |]. split; [apply Hd |].
  unfold submit. destruct (negb _ || _) eqn:Hg.
  { unfold sendMessage. by rewrite Hg. }
  destruct Ho as [-> | (r & -> & Hr)]; simpl; [done |].
  unfold onNext. by rewrite Hr.
Qed.


End Controller.

End ChatFacts.


Module StoreFacts.

Import History.

Lemma update_session_ids (sid : jsstring) (f : ChatSession → ChatSession)
    (l : list ChatSession) :
  (∀ s, id (f s) = id s) →
  id <$> update_session sid f l = id <$> l.
Proof.
  intros Hf. induction l as [|s l IH]; [done |].
  cbn [update_session].
  case_decide; rewrite !fmap_cons; [by rewrite Hf | by rewrite IH].
Qed.

Lemma load_update_session (sid : jsstring) (f : ChatSession → ChatSession)
    (l : list ChatSession) :
  (∀ s, id (f s) = id s) →
  head (filter (λ s, id s = sid) (update_session sid f l))
  = f <$> head (filter (λ s, id s = sid) l).
Proof.
  intros Hf. induction l as [|s l IH]; [done |].
  cbn [update_session].
  case_decide as Hs.
  - rewrite !filter_cons_True by (by rewrite ?Hf). done.
  - rewrite !filter_cons_False by done. exact IH.
Qed.

(** On the store of the specification, appending a message to a session
    and renaming it keeps the sessions and their order, and the session
    gains exactly that message. *)
Lemma store_append_then_rename (random_id : nat → jsstring) (now : Z)
    (sid t : jsstring) (m : ChatMessageRecord) (st : Store) :
  let st' := store_rename now sid t (store_appendMessage now sid m st) in
  id <$> sessions st' = id <$> sessions st
  ∧ messages <$> store_load sid st'
    = (λ s, messages s ++ [m]) <$> store_load sid st.
Proof.
  simpl. split.
  - by rewrite !update_session_ids.
  - unfold store_load. simpl. rewrite !load_update_session by done.
    by destruct (head _).
Qed.

End StoreFacts.

Module ChatExamples.

Import History Chat ChatFacts Examples.

(** The count that decides the rename is the one of the message list
    in memory, which holds the greeting; the store holds one message
    fewer for a fresh chat.  The first question of a fresh chat is
    renamed with one message in the store; the second question after a
    failed first one is not; a question after [clearChat], the list
    being two long again, is. *)
Lemma auto_rename_not_by_persisted_count :
  (filter is_rename (new_calls first_question (sendMessage 200 first_question))
   = [HistoryRename (js "s") (js "Show equipment status")]
   ∧ persisted_count (sendMessage 200 first_question) = Some 1
   ∧ length (filter is_append (calls (sendMessage 200 first_question))) = 1)
  ∧ (filter is_rename
       (new_calls second_question (sendMessage 400 second_question)) = []
     ∧ persisted_count (sendMessage 400 second_question) = Some 2)
  ∧ (filter is_rename
       (new_calls third_question (sendMessage 700 third_question))
     = [HistoryRename (js "s") (js "Any incidents?")]
     ∧ persisted_count (sendMessage 700 third_question) = Some 3).
Proof. vm_compute. repeat split. Qed.

Lemma accepted_first_question : accepted first_question.
Proof. split; reflexivity. Qed.

Lemma submit_transport_failure_witness :
  accepted first_question
  ∧ isLoading (submit 200 300 TransportError first_question) = false.
Proof.
  split; [split; reflexivity |].
  apply (submit_transport_failure 200 300 first_question).
  split; reflexivity.
Defined.

Lemma submit_rejected_witness :
  (Forall is_white_space (userInput (sendMessage 200 first_question))
   ∨ isLoading (sendMessage 200 first_question) = true)
  ∧ sendMessage 250 (sendMessage 200 first_question)
    = sendMessage 200 first_question.
Proof.
  split; [right; reflexivity |].
  apply (submit_rejected 250 300 TransportError
           (sendMessage 200 first_question)).
  right. reflexivity.
Defined.


Lemma failure_not_persisted_witness :
  (TransportError = TransportError
   ∨ ∃ r, TransportError = Next r ∧ success r = false)
  ∧ history (submit 200 300 TransportError first_question)
    = history (sendMessage 200 first_question).
Proof.
  split; [left; reflexivity |].
  apply (failure_not_persisted 200 300 (js "Show equipment status")
           TransportError first_question).
  left. reflexivity.
Defined.


End ChatExamples.

(* ===================================================================== *)
(** ** The session list of the application shell                          *)
(* ===================================================================== *)

Module AppFacts.

Import App.

Section Refresh.

Variable JSON_parse : jsstring → option json.

(** The empty text is not JSON: [JSON.parse("")] throws. *)
Hypothesis JSON_parse_empty : JSON_parse [] = None.

(** C7.  [refreshSessions] always returns, with the history flag
    untouched.  The session list it leaves is the empty array when the
    blob is absent, when reading it throws, and when the blob does not
    parse; it is the parsed value when the blob parses. *)
Theorem refreshSessions_tolerant
    (localStorage : LocalStorage) (a : AppComponent) :
  showHistory (refreshSessions JSON_parse localStorage a) = showHistory a
  ∧ sessions (refreshSessions JSON_parse localStorage a)
    = match localStorage (js "mining_chat_sessions_v1") with
      | Throws => JArr []
      | Returns None => JArr []
      | Returns (Some raw) =>
          match JSON_parse raw with
          | Some parsed => parsed
          | None => JArr []
          end
      end.
Proof.
  split; [reflexivity |].
  unfold refreshSessions, refreshSessions_try. simpl.
  destruct (localStorage _) as [|[raw|]]; simpl; try done.
  destruct raw as [|c raw]; simpl; [by rewrite JSON_parse_empty | done].
Qed.

End Refresh.

Example corrupt_blob :
  sessions (refreshSessions Examples.parse_literals
              (Examples.storage_with (js "{oops"))
              {| showHistory := true; sessions := JNull |})
  = JArr [].
Proof. reflexivity. Qed.

Lemma refreshSessions_witness :
  Examples.parse_literals [] = None
  ∧ sessions (refreshSessions Examples.parse_literals
                (Examples.storage_with (js "null"))
                {| showHistory := true; sessions := JArr [] |})
    = JNull.
Proof.
  split; [reflexivity |].
  apply (refreshSessions_tolerant Examples.parse_literals eq_refl
           (Examples.storage_with (js "null"))
           {| showHistory := true; sessions := JArr [] |}).
Defined.

End AppFacts.

(* ===================================================================== *)
(** ** The conversation controller: the other handlers                    *)
(* ===================================================================== *)

Module HandlerFacts.

Import History Chat ChatHandlers JSFacts ChatFacts.

Section Controller.

Context {H : Type} `{HistoryService H}.

Variable toLowerCase : jsstring → jsstring.

Implicit Types s : ChatComponent H.
Implicit Types u : ChatWithUpload H.

Lemma accepted_dec s : accepted s ∨ sendMessage 0 s = s ∧ ¬ accepted s.
Proof.
  unfold accepted, sendMessage.
  destruct (truthy_string (trim (userInput s))), (isLoading s); simpl;
    [right | left | right | right]; try done; split; try done;
    by intros [? ?].
Qed.

Lemma new_calls_app s s' (l : list Call) :
  calls s' = calls s ++ l → new_calls s s' = l.
Proof. unfold new_calls. intros ->. apply drop_app_length. Qed.

(** X1.  A second [sendMessage] straight after a first changes nothing:
    either the first was rejected and so is the second, or the first
    left the component loading with an empty input. *)
Theorem sendMessage_twice (t0 t1 : Z) s :
  sendMessage t1 (sendMessage t0 s) = sendMessage t0 s.
Proof.
  destruct (accepted_dec s) as [Ha | [Hs Hn]].
  - apply sendMessage_rejected. rewrite (sendMessage_accepted t0 s Ha).
    unfold accepted. simpl. by intros [? ?].
  - rewrite (sendMessage_rejected t0 s Hn). by apply sendMessage_rejected.
Qed.

(** X2.  An accepted [sendMessage] calls [create] exactly when the
    component has no session, once, with the untrimmed input text as the
    title and the component's language; afterwards the component has a
    session, and it sent exactly one query, carrying the untrimmed
    text. *)
Theorem session_created_lazily (now : Z) s :
  accepted s →
  let s' := sendMessage now s in
  filter is_create (new_calls s s')
  = match currentSession s with
    | Some _ => []
    | None => [HistoryCreate (userInput s) (language s)]
    end
  ∧ is_Some (currentSession s')
  ∧ (∀ cs, currentSession s = Some cs → currentSession s' = Some cs)
  ∧ filter is_query (new_calls s s')
    = [SendQuery (userInput s) (language s) (includeAudio s)].
Proof.
  intros Ha s'. subst s'. rewrite (sendMessage_accepted now s Ha).
  unfold new_calls, target. simpl. rewrite drop_app_length.
  destruct (currentSession s) as [cs|]; simpl;
    case_bool_decide; simpl; repeat split; eauto; by intros ? [= <-].
Qed.

Lemma frugal_same_session (f : ChatComponent H → ChatComponent H) :
  (∀ s, currentSession (f s) = currentSession s) →
  (∀ s, ∃ l, calls (f s) = calls s ++ l ∧ filter is_create l = []) →
  frugal f.
Proof.
  intros Hc Hl s. unfold creates, without_session. rewrite Hc.
  destruct (Hl s) as (l & -> & Hf). rewrite filter_app, length_app, Hf.
  simpl. lia.
Qed.

Lemma frugal_sendMessage now : frugal (H:=H) (sendMessage now).
Proof.
  intros s. destruct (accepted_dec s) as [Ha | [_ Hn]].
  - rewrite (sendMessage_accepted now s Ha).
    unfold creates, without_session. simpl.
    rewrite !filter_app, !length_app.
    destruct (currentSession s); simpl; case_bool_decide; simpl; lia.
  - rewrite (sendMessage_rejected now s Hn). lia.
Qed.

Lemma frugal_loadSession sid : frugal (H:=H) (loadSession sid).
Proof.
  intros s. unfold loadSession, creates, without_session.
  destruct (load sid (history s)); simpl;
    rewrite filter_app, length_app; simpl;
    destruct (currentSession s); simpl; lia.
Qed.

Lemma frugal_deliver now q o : frugal (H:=H) (deliver now q o).
Proof.
  apply frugal_same_session; intros s.
  - destruct o as [r|]; simpl; [| done].
    unfold onNext. by destruct (success r), (currentSession s).
  - destruct o as [r|]; simpl; [| by eexists].
    unfold onNext. destruct (success r); [| by eexists].
    destruct (currentSession s), (includeAudio s && _); simpl;
      eexists; (split; [by rewrite <- ?app_assoc | done]).
Qed.

Lemma frugal_playAudio m : frugal (H:=H) (playAudio m).
Proof.
  apply frugal_same_session; intros s; unfold playAudio.
  - destruct (audio m) as [a|]; [| done].
    destruct (audio_base64 a) as [b|]; [| done].
    by destruct (audio_success a && truthy_string b).
  - destruct (audio m) as [a|]; [| by exists []; rewrite app_nil_r].
    destruct (audio_base64 a) as [b|]; [| by exists []; rewrite app_nil_r].
    destruct (audio_success a && truthy_string b);
      [by eexists | by exists []; rewrite app_nil_r].
Qed.

Lemma frugal_compose (f g : ChatComponent H → ChatComponent H) :
  frugal f → frugal g → frugal (λ s, g (f s)).
Proof.
  intros Hf Hg s. destruct (Hf s), (Hg (f s)). lia.
Qed.

Lemma frugal_step u (ev : Event) :
  creates (component (step toLowerCase u ev))
    + without_session (component (step toLowerCase u ev))
  ≤ creates (component u) + without_session (component u)
  ∧ without_session (component (step toLowerCase u ev))
    ≤ without_session (component u).
Proof.
  destruct ev as [now | text | now | now shift | now ty detail | now q o
                 | now | m | [f|] | now f res | now f]; simpl;
    try (apply (frugal_same_session _);
         [done | intros s; first [by exists []; rewrite app_nil_r
                                 | by eexists]]).
  - apply frugal_sendMessage.
  - destruct shift; simpl; [lia | apply frugal_sendMessage].
  - unfold onWindowEvent. repeat case_decide.
    + apply (frugal_compose (setUserInput detail) (sendMessage now));
        [| apply frugal_sendMessage].
      apply frugal_same_session; [done |].
      intros s. by exists []; rewrite app_nil_r.
    + apply frugal_loadSession.
    + lia.
  - apply frugal_deliver.
  - apply frugal_playAudio.
  - lia.
  - lia.
Qed.

(** X3.  In every run of the component from its construction, whatever
    the events, [create] is called at most once, and once it has been
    called the component has a session; a component with a session
    never goes back to having none. *)
Theorem session_created_at_most_once
    (language : jsstring) (h : H) (u : ChatWithUpload H) (evs : list Event) :
  let fresh := run toLowerCase (constructed language h) evs in
  creates (component fresh) ≤ 1
  ∧ (creates (component fresh) = 1 →
     is_Some (currentSession (component fresh)))
  ∧ (is_Some (currentSession (component u)) →
     is_Some (currentSession (component (run toLowerCase u evs)))).
Proof.
  assert (Hrun : ∀ evs u,
    creates (component (run toLowerCase u evs))
      + without_session (component (run toLowerCase u evs))
    ≤ creates (component u) + without_session (component u)
    ∧ without_session (component (run toLowerCase u evs))
      ≤ without_session (component u)).
  { clear. intros evs. induction evs as [|ev evs IH]; intros u; simpl; [lia |].
    destruct (IH (step toLowerCase u ev)), (frugal_step u ev). lia. }
  intros fresh.
  destruct (Hrun evs (constructed language h)) as [H1 _].
  fold fresh in H1.
  change (creates (component (constructed language h))) with 0 in H1.
  change (without_session (component (constructed language h))) with 1 in H1.
  split; [lia |]. split.
  - intros Hc. unfold without_session in H1.
    destruct (currentSession (component fresh)); [by eexists | lia].
  - intros [cs Hcs]. destruct (Hrun evs u) as [_ H2].
    unfold without_session in H2. rewrite Hcs in H2.
    destruct (currentSession (component (run toLowerCase u evs)));
      [by eexists | lia].
Qed.

End Controller.

End HandlerFacts.

Module ResponseFacts.

Import History Chat ChatHandlers JSFacts ChatFacts HandlerFacts.

Section Controller.

Context {H : Type} `{HistoryService H}.

Implicit Types s : ChatComponent H.

(** The assistant message that the [next] callback builds from a
    successful response. *)
Lemma onNext_success (now : Z) (r : QueryResponse) s :
  success r = true →
  let m :=
    {| role := assistant; content := answer (response r); timestamp := now;
       visualizations := resp_visualizations (response r);
       recommendations := resp_recommendations (response r);
       audio := resp_audio (response r) |} in
  let play :=
    if includeAudio s
       && from_option audio_success false (resp_audio (response r))
    then [PlayAudio (resp_audio (response r) ≫= audio_base64)] else [] in
  onNext now r s
  = {| messages := messages s ++ [m]; userInput := userInput s;
       isLoading := false; includeAudio := includeAudio s;
       currentSession := currentSession s; language := language s;
       history :=
         match currentSession s with
         | Some cs => appendMessage now (id cs) (to_record m) (history s)
         | None => history s
         end;
       calls :=
         calls s
         ++ match currentSession s with
            | Some cs => [HistoryAppendMessage (id cs) (to_record m)]
            | None => []
            end
         ++ play ++ [ScrollToBottom] |}.
Proof.
  intros Hr. unfold onNext. rewrite Hr. simpl.
  destruct (currentSession s), (includeAudio s && _); simpl;
    by rewrite <- ?app_assoc.
Qed.

(** X4.  Whatever the outcome of a query (a successful response, a
    reported failure, a transport error), its callback appends exactly
    one message, an assistant message, and clears the loading flag; it
    leaves the input text, the session pointer, the language and the
    audio switch alone. *)
Theorem every_outcome_ends_loading (now : Z) (q : jsstring) (o : Outcome) s :
  let s' := deliver now q o s in
  (∃ m, messages s' = messages s ++ [m] ∧ role m = assistant)
  ∧ isLoading s' = false
  ∧ userInput s' = userInput s
  ∧ currentSession s' = currentSession s
  ∧ language s' = language s
  ∧ includeAudio s' = includeAudio s.
Proof.
  destruct o as [r|]; simpl.
  - destruct (success r) eqn:Hr.
    + rewrite (onNext_success now r s Hr). simpl. split; [by eexists | done].
    + unfold onNext. rewrite Hr. simpl. split; [by eexists | done].
  - split; [by eexists | done].
Qed.

(** X5.  A successful response is persisted under the session that is
    current when the callback runs: the history service is called once,
    to append the record of the very message appended in memory; with
    no current session the message is shown and nothing is persisted. *)
Theorem success_persisted_once (now : Z) (r : QueryResponse) s :
  success r = true →
  let s' := onNext now r s in
  ∃ m, messages s' = messages s ++ [m]
  ∧ content m = answer (response r)
  ∧ match currentSession s with
    | Some cs =>
        filter is_append (new_calls s s')
        = [HistoryAppendMessage (id cs) (to_record m)]
        ∧ history s' = appendMessage now (id cs) (to_record m) (history s)
    | None =>
        filter is_append (new_calls s s') = [] ∧ history s' = history s
    end
  ∧ filter is_create (new_calls s s') = []
  ∧ filter is_rename (new_calls s s') = [].
Proof.
  intros Hr s'. subst s'. rewrite (onNext_success now r s Hr).
  eexists. split; [reflexivity |]. split; [reflexivity |].
  unfold new_calls. simpl. rewrite drop_app_length.
  destruct (currentSession s), (includeAudio s && _); simpl; done.
Qed.

(** X6.  A query's callback plays audio exactly when the response
    succeeded, the audio switch is on, and the response has an audio
    descriptor whose [success] is true; it then hands over the
    descriptor's payload as it is, missing or not.  No other outcome
    plays anything. *)
Theorem autoplay_exactly_when (now : Z) (q : jsstring) (o : Outcome) s :
  filter is_play (new_calls s (deliver now q o s))
  = match o with
    | Next r =>
        if success r && includeAudio s
           && from_option audio_success false (resp_audio (response r))
        then [PlayAudio (resp_audio (response r) ≫= audio_base64)]
        else []
    | TransportError => []
    end.
Proof.
  destruct o as [r|]; simpl.
  - destruct (success r) eqn:Hr.
    + rewrite (onNext_success now r s Hr).
      unfold new_calls. simpl. rewrite drop_app_length.
      destruct (currentSession s), (includeAudio s && _); simpl; done.
    + unfold onNext. rewrite Hr. unfold new_calls. simpl.
      by rewrite drop_app_length.
  - unfold new_calls. simpl. by rewrite drop_app_length.
Qed.

(** X7.  The replay button changes nothing but the call log: the
    messages, the history, the loading flag, the input text and the
    session pointer stay, whether it plays or not.  It calls the audio
    service only for a message whose audio descriptor has [success]
    true and a payload that is present and not empty, then once and
    with that payload; it makes no other call. *)
Theorem replay_needs_payload (message : ChatMessage) s :
  messages (playAudio message s) = messages s
  ∧ history (playAudio message s) = history s
  ∧ isLoading (playAudio message s) = isLoading s
  ∧ userInput (playAudio message s) = userInput s
  ∧ currentSession (playAudio message s) = currentSession s
  ∧ (∀ call, call ∈ new_calls s (playAudio message s) →
       ∃ a b, audio message = Some a ∧ audio_success a = true
              ∧ audio_base64 a = Some b ∧ b ≠ []
              ∧ call = PlayAudio (Some b))
  ∧ (∀ a b, audio message = Some a → audio_success a = true →
       audio_base64 a = Some b → b ≠ [] →
       new_calls s (playAudio message s) = [PlayAudio (Some b)]).
Proof.
  unfold playAudio, new_calls.
  destruct (audio message) as [a|] eqn:Hm;
    [| rewrite drop_all; repeat split; try done; by intros ? ?%elem_of_nil].
  destruct (audio_base64 a) as [b|] eqn:Hb;
    [| rewrite drop_all; repeat split; try done;
       [by intros ? ?%elem_of_nil | intros ? ? [= <-] _ Hb'; congruence]].
  destruct (audio_success a) eqn:Ha, b as [|c b]; simpl;
    rewrite ?drop_all, ?drop_app_length; repeat split; try done;
    try (by intros ? ?%elem_of_nil);
    try (intros ? ? [= <-] Ha' Hb' Hne; congruence).
  intros call ->%list_elem_of_singleton. by exists a, (c :: b).
Qed.

(** X8.  The response of a query is persisted under the session that is
    current when it arrives, not the one it was asked in: if another
    session is loaded while the query is in flight, the component stays
    loading, and the answer is appended to the loaded session's
    messages on screen and persisted under the loaded session's id. *)
Theorem response_lands_in_loaded_session
    (t0 t1 : Z) (sid : jsstring) (loaded : ChatSession) (r : QueryResponse) s :
  accepted s →
  load sid (history (sendMessage t0 s)) = Some loaded →
  success r = true →
  let waiting := loadSession sid (sendMessage t0 s) in
  let s' := onNext t1 r waiting in
  isLoading waiting = true
  ∧ ∃ m, content m = answer (response r)
    ∧ messages s' = (of_record <$> History.messages loaded) ++ [m]
    ∧ filter is_append (new_calls waiting s')
      = [HistoryAppendMessage (id loaded) (to_record m)].
Proof.
  intros Ha Hl Hr waiting s'.
  assert (Hw : waiting
    = {| messages := of_record <$> History.messages loaded;
         userInput := []; isLoading := true;
         includeAudio := includeAudio s; currentSession := Some loaded;
         language := if truthy_string (History.language loaded)
                     then History.language loaded else language s;
         history := history (sendMessage t0 s);
         calls := calls (sendMessage t0 s)
                  ++ [HistoryLoad sid; ScrollToBottom] |}).
  { subst waiting. unfold loadSession. rewrite Hl.
    by rewrite (sendMessage_accepted t0 s Ha). }
  split; [by rewrite Hw |].
  subst s'. rewrite (onNext_success t1 r waiting Hr).
  exists {| role := assistant; content := answer (response r);
            timestamp := t1;
            visualizations := resp_visualizations (response r);
            recommendations := resp_recommendations (response r);
            audio := resp_audio (response r) |}.
  split; [reflexivity |]. unfold new_calls. simpl.
  rewrite drop_app_length. rewrite Hw. simpl.
  split; [done |]. by destruct (includeAudio s && _).
Qed.

(** A message survives being persisted and shown again. *)
Lemma of_record_to_record (m : ChatMessage) : of_record (to_record m) = m.
Proof. by destruct m. Qed.

Lemma to_record_of_record (r : ChatMessageRecord) : to_record (of_record r) = r.
Proof. by destruct r. Qed.

(** X9.  Loading a session: with an id the history service does not
    know, the messages, the session pointer, the language and the
    history are as before; with a known id, the message list is
    replaced by the stored one, message for message as they were
    persisted, the pointer is the loaded session, and the language is
    the session's unless that is empty.  Either way the input text and
    the loading flag stay. *)
Theorem loadSession_replaces_list (sid : jsstring) s :
  match load sid (history s) with
  | None =>
      messages (loadSession sid s) = messages s
      ∧ currentSession (loadSession sid s) = currentSession s
      ∧ language (loadSession sid s) = language s
  | Some session =>
      to_record <$> messages (loadSession sid s) = History.messages session
      ∧ currentSession (loadSession sid s) = Some session
      ∧ language (loadSession sid s)
        = match History.language session with
          | [] => language s
          | _ => History.language session
          end
  end
  ∧ history (loadSession sid s) = history s
  ∧ userInput (loadSession sid s) = userInput s
  ∧ isLoading (loadSession sid s) = isLoading s.
Proof.
  unfold loadSession. destruct (load sid (history s)) as [session|]; simpl.
  - repeat split.
    + rewrite <- list_fmap_compose.
      rewrite <- (list_fmap_id (History.messages session)) at 2.
      apply list_fmap_ext. intros _ r _. apply to_record_of_record.
    + by destruct (History.language session).
  - done.
Qed.

(** X10.  A suggestion that arrives while a request is in flight, or
    that is blank, is written into the input box, replacing what was
    typed, and is not sent: nothing else changes. *)
Theorem suggestion_not_sent (now : Z) (detail : jsstring) s :
  isLoading s = true ∨ Forall is_white_space detail →
  suggestQuestion now detail s = setUserInput detail s.
Proof.
  intros Hr. unfold suggestQuestion. apply sendMessage_rejected.
  unfold accepted. simpl. intros [Hin Hl]. destruct Hr as [Hr | Hr].
  - by rewrite Hr in Hl.
  - apply blank_iff in Hr. by rewrite Hr in Hin.
Qed.

End Controller.

End ResponseFacts.

Module UploadFacts.

Import History Chat ChatHandlers JSFacts ChatFacts HandlerFacts.

Section Controller.

Context {H : Type} `{HistoryService H}.

Variable toLowerCase : jsstring → jsstring.

Implicit Types s : ChatComponent H.
Implicit Types u : ChatWithUpload H.

(** X11.  Uploads are a side channel.  Selecting no file does nothing;
    selecting a file calls the upload service once, as csv exactly
    when the lower-cased name ends in .csv and as pdf otherwise, and
    leaves the chat as it is.  Either callback appends one assistant
    status message (the success text only for a result whose [success]
    is true, the failure text otherwise) and scrolls; it calls neither
    the history service nor the query service, and it leaves the
    loading flag, the session pointer and the input text alone. *)
Theorem upload_is_a_side_channel
    (now : Z) (file : File) (res : option bool) u :
  onFileSelected toLowerCase None u = u
  ∧ component (onFileSelected toLowerCase (Some file) u) = component u
  ∧ uploadCalls (onFileSelected toLowerCase (Some file) u)
    = uploadCalls u
      ++ [(file,
           if bool_decide (js ".csv" `suffix_of` toLowerCase (name file))
           then csv else pdf)]
  ∧ status_appended now
      (match res with Some true => imported file | _ => failed file end)
      u (uploadNext now file res u)
  ∧ status_appended now (failed file) u (uploadError now file u).
Proof.
  split; [done |]. split; [done |]. split; [done |].
  unfold status_appended, uploadNext, uploadError, pushStatus, new_calls.
  simpl. rewrite drop_app_length.
  split; [by destruct res as [[|]|] | done].
Qed.

(** X12.  A status message counts as a message: when an upload finishes
    in a chat that shows one message, the question asked next makes the
    list three long, and the session is not renamed. *)
Theorem status_message_prevents_rename
    (t0 t1 : Z) (file : File) (res : option bool) (text : jsstring) u :
  length (messages (component u)) = 1 →
  let s := setUserInput text (component (uploadNext t0 file res u)) in
  accepted s →
  length (messages (sendMessage t1 s)) = 3
  ∧ filter is_rename (new_calls s (sendMessage t1 s)) = [].
Proof.
  intros Hlen s Ha.
  rewrite (sendMessage_accepted t1 s Ha).
  unfold new_calls. simpl. rewrite drop_app_length.
  rewrite !length_app, Hlen. simpl. split; [done |].
  destruct (currentSession (component u)); simpl; done.
Qed.

End Controller.

Lemma chart_rows_non_empty (charts : list (jsstring * list record))
    (k : jsstring) :
  non_empty (chart_rows charts k) = true
  ↔ ∃ rows, chart_rows charts k = Some rows ∧ rows ≠ [].
Proof.
  destruct (chart_rows charts k) as [[|d rows]|]; simpl; split;
    try done; try (by intros (? & [= <-] & ?)); try (by intros (? & ? & ?)).
  intros _. by eexists.
Qed.

(** X13.  [hasChartData] holds exactly when one of the three charts
    equipment_status, production_trend, incidents_trend is there with at
    least one record; charts under any other name do not count, and a
    missing charts object has no data.  The fallback message of a
    transport error always has chart data. *)
Theorem hasChartData_three_charts
    (charts : list (jsstring * list record)) (now : Z) (query : jsstring) :
  (hasChartData (Some charts) = true
   ↔ ∃ k rows,
       k ∈ [js "equipment_status"; js "production_trend";
            js "incidents_trend"]
       ∧ chart_rows charts k = Some rows ∧ rows ≠ [])
  ∧ hasChartData None = false
  ∧ hasChartData
      (History.charts <$> visualizations (fallbackMessage now query))
    = true.
Proof.
  split; [| done]. unfold hasChartData.
  rewrite !orb_true_iff, !chart_rows_non_empty. split.
  - intros [[(rows & ? & ?) | (rows & ? & ?)] | (rows & ? & ?)];
      eexists _, rows; (split; [| done]);
      rewrite !elem_of_cons; auto.
  - intros (k & rows & Hk & ? & ?).
    rewrite !elem_of_cons in Hk.
    destruct Hk as [-> | [-> | [-> | Hk]]]; [eauto .. |].
    by apply elem_of_nil in Hk.
Qed.

End UploadFacts.

(* ===================================================================== *)
(** ** The application shell                                              *)
(* ===================================================================== *)

Module ShellFacts.

Import History Chat ChatHandlers Shell.

Section Page.

Context {H : Type} `{HistoryService H}.

(** X14.  The events that the application component dispatches on the
    [app-chat] element do not bubble, and the chat component listens on
    the window: neither a suggested question nor the opening of a
    session changes the chat component.  [openSession] still closes the
    history panel and keeps the session list.  The same events
    dispatched on the window would run the listeners. *)
Theorem shell_events_stop_at_the_element
    (now : Z) (text : jsstring) (p : Page H) (c : ChatComponent H) :
  chat (suggestQuestion now text p) = chat p
  ∧ app (suggestQuestion now text p) = app p
  ∧ chat (openSession now text p) = chat p
  ∧ App.showHistory (app (openSession now text p)) = false
  ∧ App.sessions (app (openSession now text p)) = App.sessions (app p)
  ∧ dispatchEvent now Window (newCustomEvent (js "loadSession") text) c
    = loadSession text c
  ∧ dispatchEvent now Window (newCustomEvent (js "suggestQuestion") text) c
    = Chat.suggestQuestion now text c.
Proof.
  unfold suggestQuestion, openSession.
  destruct p as [a [c0|]]; simpl; done.
Qed.

End Page.

End ShellFacts.

Module ToggleFacts.

Import App.

(** X15.  Toggling the history panel twice, with the storage unchanged
    in between, restores the flag and leaves the session list as one
    fresh read of the storage gives it: the list is read when the panel
    opens and never when it closes. *)
Theorem toggleHistory_twice
    (JSON_parse : jsstring → option json) (localStorage : LocalStorage)
    (a : AppComponent) :
  toggleHistory JSON_parse localStorage
    (toggleHistory JSON_parse localStorage a)
  = {| showHistory := showHistory a;
       sessions := sessions (refreshSessions JSON_parse localStorage a) |}
  ∧ (showHistory a = true →
     sessions (toggleHistory JSON_parse localStorage a) = sessions a).
Proof.
  unfold toggleHistory, refreshSessions.
  destruct a as [[|] ss]; simpl; done.
Qed.

End ToggleFacts.

(* ===================================================================== *)
(** ** The chart renderer: colours, labels and sizes                      *)
(* ===================================================================== *)

Module PaletteFacts.

Import Charts Labels Wording WordingFacts.

Lemma generateColors_lookup (n i : nat) (alpha : Q) :
  generateColors n alpha !! i
  = if decide (i < n)
    then if decide (i < 8) then palette8 alpha !! i
         else Some (Hsla (hue i) 70 65 alpha)
    else None.
Proof.
  unfold generateColors. simpl length.
  destruct (decide (i < n)) as [Hi | Hi].
  - case_decide as Hn.
    + rewrite lookup_take_lt by done.
      destruct (decide (i < 8)) as [H8 | H8].
      * by rewrite lookup_app_l by (simpl; lia).
      * rewrite lookup_app_r by (simpl; lia). simpl length.
        rewrite list_lookup_fmap, lookup_seq_lt by lia. simpl.
        do 3 f_equal. lia.
    + rewrite lookup_take_lt by done. by rewrite decide_True by lia.
  - case_decide; by rewrite lookup_take_ge by lia.
Qed.

Lemma length_generateColors (n : nat) (alpha : Q) :
  length (generateColors n alpha) = n.
Proof.
  unfold generateColors. simpl length. case_decide.
  - rewrite length_take. simpl. rewrite length_fmap, length_seq. lia.
  - rewrite length_take. simpl. lia.
Qed.

(** X16.  The colours of a pie chart are stable as slices are added:
    the colours for [n] slices are the first [n] of the colours for any
    larger number of slices. *)
Theorem generateColors_prefix (n m : nat) (alpha : Q) :
  n ≤ m → take n (generateColors m alpha) = generateColors n alpha.
Proof.
  intros Hnm. apply list_eq. intros i.
  destruct (decide (i < n)) as [Hi | Hi].
  - rewrite lookup_take_lt by done. rewrite !generateColors_lookup.
    destruct (decide (i < m)), (decide (i < n)); try lia; done.
  - rewrite lookup_take_ge by lia. rewrite generateColors_lookup.
    destruct (decide (i < n)); [lia | done].
Qed.

(** X17.  The two palettes agree where both are defined: the colour of
    series [i], for [i] below 6, is the colour of slice [i] of a pie
    chart with more than [i] slices; and the series colours repeat with
    period 6. *)
Theorem palettes_agree (n i k : nat) (alpha : Q) :
  i < 6 → i < n →
  generateColors n alpha !! i = getColor i alpha
  ∧ getColor (i + 6 * k) alpha = getColor i alpha.
Proof.
  intros H6 Hn. split.
  - rewrite generateColors_lookup.
    destruct (decide (i < n)); [| lia]. destruct (decide (i < 8)); [| lia].
    unfold getColor. simpl length. rewrite Nat.mod_small by done.
    do 6 (destruct i as [|i]; [reflexivity |]). lia.
  - unfold getColor. simpl length. f_equal.
    replace (i + 6 * k) with (i + k * 6) by lia. apply Nat.Div0.mod_add.
Qed.

Lemma length_dedup (l : list value) : length (dedup l) ≤ length l.
Proof.
  induction l as [|v l IH]; simpl; [done |].
  pose proof (length_filter (λ w, w ≠ v) (dedup l)). lia.
Qed.

Section Render.

Variable toUpperCase : jsstring → jsstring.

Lemma space_capitals_length (key : list N) :
  length (space_capitals key) = length key + length (filter is_capital key).
Proof.
  induction key as [|c key IH]; [done |].
  cbn [space_capitals]. fold (is_capital c).
  destruct (is_capital c) eqn:Hc.
  - rewrite filter_cons_True by (by apply Is_true_true_2). simpl. lia.
  - rewrite filter_cons_False by (by apply Is_true_false_2). simpl. lia.
Qed.

Lemma space_capitals_none (key : jsstring) :
  Forall (λ c, is_capital c = false) key → space_capitals key = key.
Proof.
  induction 1 as [|c key Hc _ IH]; [done |].
  cbn [space_capitals]. unfold is_capital in Hc. by rewrite Hc, IH.
Qed.

(** X19.  The label of a key: a space goes in front of every capital
    letter of the key, so the spaced key is longer by the number of
    capitals, and a key that begins with a capital gets a label that
    begins with (the upper case of) a space; then the first code unit
    is upper-cased, unless it is a line terminator.  A key without
    capitals, such as a snake_case key, only has its first code unit
    upper-cased.  The empty key has the empty label. *)
Theorem formatLabel_shape (key : jsstring) :
  formatLabel toUpperCase key
  = match key with
    | [] => []
    | c :: rest =>
        if is_capital c
        then toUpperCase [32%N] ++ c :: space_capitals rest
        else if is_line_terminator c then c :: space_capitals rest
        else toUpperCase [c] ++ space_capitals rest
    end
  ∧ length (space_capitals key)
    = length key + length (filter is_capital key)
  ∧ (Forall (λ c, is_capital c = false) key →
     formatLabel toUpperCase key = upper_first toUpperCase key).
Proof.
  split; [| split].
  - destruct key as [|c rest]; [done |].
    unfold formatLabel, is_capital. cbn [space_capitals].
    destruct ((65 <=? c) && (c <=? 90))%N eqn:Hc; [done |].
    simpl. by destruct (is_line_terminator c).
  - apply space_capitals_length.
  - intros Hk. unfold formatLabel. by rewrite space_capitals_none.
Qed.

(** X20.  A pie or doughnut chart is aligned: for every record array
    the labels, the values of its one series, its background colours
    and its border colours are all as many as the records. *)
Theorem categorical_chart_aligned (type : ChartType) (data : list record) :
  type = pie ∨ type = doughnut →
  let cd := chartData toUpperCase type data in
  length (labels cd) = length data
  ∧ ∃ values backgroundColor borderColor,
      datasets cd = [Slices values backgroundColor borderColor 2]
      ∧ length values = length data
      ∧ length backgroundColor = length data
      ∧ length borderColor = length data.
Proof.
  intros Ht cd.
  assert (Hb : bool_decide (type = pie) || bool_decide (type = doughnut)
               = true).
  { destruct Ht; subst; reflexivity. }
  subst cd. unfold chartData. rewrite Hb. cbn [labels datasets].
  split; [by rewrite length_fmap |].
  eexists _, _, _. split; [reflexivity |].
  by rewrite !length_generateColors, !length_fmap.
Qed.

(** X21.  A line or bar chart need not be aligned: every series has one
    value per record, while the labels, being deduplicated and
    filtered, can be fewer than the records, never more; and there are
    no more series than the first record has keys. *)
Theorem series_chart_sizes (type : ChartType) (data : list record) :
  type = line ∨ type = bar →
  let cd := chartData toUpperCase type data in
  length (labels cd) ≤ length data
  ∧ Forall (λ ds, length (dataset_data ds) = length data) (datasets cd)
  ∧ length (datasets cd) ≤ length (keys (default [] (data !! 0))).
Proof.
  intros Ht cd.
  assert (Hb : bool_decide (type = pie) || bool_decide (type = doughnut)
               = false).
  { destruct Ht; subst; reflexivity. }
  subst cd. unfold chartData. rewrite Hb. cbn [labels datasets].
  split; [| split].
  - etrans; [apply length_filter |].
    rewrite array_from_set_dedup.
    etrans; [apply length_dedup |]. by rewrite length_fmap.
  - apply Forall_lookup_2. intros i ds.
    rewrite list_lookup_imap. intros Hds.
    apply fmap_Some in Hds as (k & _ & ->). simpl. by rewrite length_fmap.
  - rewrite length_imap. apply length_filter.
Qed.

End Render.

End PaletteFacts.

Module RenderFacts.

Import Charts EngineFacts.

Section Render.

Variable toUpperCase : jsstring → jsstring.

Lemma destroyExisting_inputs (canvas : Canvas) (c : ChartsComponent)
    (e : Engine) :
  data (destroyExisting canvas c e).1 = data c
  ∧ type (destroyExisting canvas c e).1 = type c
  ∧ title (destroyExisting canvas c e).1 = title c
  ∧ chartId (destroyExisting canvas c e).1 = chartId c.
Proof. unfold destroyExisting. by destruct (chartInstance c). Qed.

(** X22.  After a render that found its canvas, from an engine with at
    most one live chart per surface, the one live chart on the canvas
    is the component's: it is built from the component's current type,
    data and title, the component's handle is its id, and the inputs of
    the component are as they were. *)
Theorem rendered_chart_shows_inputs
    (doc : Document) (c : ChartsComponent) (e : Engine) (canvas : Canvas) :
  surface doc c = Some canvas →
  at_most_one_live e →
  let c' := (renderChart toUpperCase doc c e).1 in
  let e' := (renderChart toUpperCase doc c e).2 in
  ∃ ch, live_on canvas e' = [ch]
  ∧ chartInstance c' = Some (chart_id ch)
  ∧ chart_canvas ch = canvas
  ∧ chart_config ch
    = {| cfg_type := type c;
         cfg_data := chartData toUpperCase (type c) (data c);
         cfg_options := getChartOptions (type c) (title c) |}
  ∧ data c' = data c ∧ type c' = type c
  ∧ title c' = title c ∧ chartId c' = chartId c.
Proof.
  intros Hs He c' e'. subst c' e'. rewrite renderChart_surface, Hs.
  destruct (destroyExisting_spec canvas c e) as (_ & _ & Hd).
  destruct (Hd He) as [_ Hl1]. clear Hd.
  destruct (destroyExisting_inputs canvas c e) as (Hda & Hty & Hti & Hid).
  destruct (destroyExisting canvas c e) as [c1 e1]. simpl in *.
  eexists. split.
  - unfold live_on in *. simpl. rewrite filter_app, Hl1.
    rewrite filter_cons_True by done. reflexivity.
  - simpl. by rewrite Hda, Hty, Hti, Hid.
Qed.

(** X23.  Teardown frees the surface: a render that found its canvas,
    followed by [ngOnDestroy], leaves the component without a handle
    and no live chart on the canvas, and keeps at most one live chart
    on every surface.  [ngOnDestroy] a second time changes nothing. *)
Theorem teardown_frees_surface
    (doc : Document) (c : ChartsComponent) (e : Engine) (canvas : Canvas) :
  surface doc c = Some canvas →
  at_most_one_live e →
  let r := renderChart toUpperCase doc c e in
  let d := ngOnDestroy r.1 r.2 in
  chartInstance d.1 = None
  ∧ live_on canvas d.2 = []
  ∧ at_most_one_live d.2
  ∧ ngOnDestroy d.1 d.2 = d.
Proof.
  intros Hs He r d.
  destruct (renderChart_found toUpperCase doc c e canvas Hs He)
    as (He' & ch & Hl & Hh).
  fold r in He', Hl, Hh. subst d. unfold ngOnDestroy. rewrite Hh. simpl.
  split; [done |]. split; [| split; [| done]].
  - rewrite live_on_destroy, Hl.
    by rewrite filter_cons_False, filter_nil by auto.
  - by apply destroy_at_most_one.
Qed.

End Render.

End RenderFacts.

Module RunFacts.

Import History Chat ChatHandlers JSFacts ChatFacts HandlerFacts ResponseFacts.

Section Controller.

Context {H : Type} `{HistoryService H}.

Variable toLowerCase : jsstring → jsstring.

Implicit Types s : ChatComponent H.
Implicit Types u : ChatWithUpload H.

Lemma appends_nothing (f : ChatComponent H → ChatComponent H) s :
  calls (f s) = calls s → isLoading (f s) = isLoading s → appends f s.
Proof.
  intros Hc Hl. exists []. rewrite app_nil_r.
  split; [done |]. split; [done |]. intros Hs. by rewrite Hl.
Qed.

Lemma appends_sendMessage now s : appends (H:=H) (sendMessage now) s.
Proof.
  destruct (accepted_dec s) as [Ha | [_ Hn]].
  - unfold appends. rewrite (sendMessage_accepted now s Ha).
    cbn [calls isLoading].
    eexists. split; [reflexivity |]. destruct Ha as [Hin Hl]. split.
    + assert (Hq : trim (userInput s) ≠ []).
      { intros Ht. by rewrite Ht in Hin. }
      destruct (currentSession s); case_bool_decide;
        repeat first [apply Forall_app_2 | apply Forall_cons_2
                     | apply Forall_nil_2];
        cbn [sane_call]; try done;
        unfold substring0; rewrite length_take; lia.
    + intros Hs. by rewrite Hs in Hl.
  - apply appends_nothing; by rewrite (sendMessage_rejected now s Hn).
Qed.

Lemma appends_playAudio m s : appends (H:=H) (playAudio m) s.
Proof.
  unfold appends, playAudio.
  destruct (audio m) as [a|]; [| by apply (appends_nothing (λ s, s))].
  destruct (audio_base64 a) as [b|]; [| by apply (appends_nothing (λ s, s))].
  destruct (audio_success a && truthy_string b);
    [| by apply (appends_nothing (λ s, s))].
  simpl. eexists. split; [reflexivity |].
  split; [by repeat constructor | done].
Qed.

Lemma appends_loadSession sid s : appends (H:=H) (loadSession sid) s.
Proof.
  unfold appends, loadSession.
  destruct (load sid (history s)); simpl; eexists;
    (split; [reflexivity |]); (split; [by repeat constructor | done]).
Qed.

Lemma step_appends u (ev : Event) :
  ∃ l, calls (component (step toLowerCase u ev)) = calls (component u) ++ l
       ∧ Forall sane_call l
       ∧ (isLoading (component u) = true → is_respond ev = false →
          isLoading (component (step toLowerCase u ev)) = true
          ∧ filter is_query l = []).
Proof.
  assert (Hw : ∀ f, appends f (component u) →
    ∃ l, calls (f (component u)) = calls (component u) ++ l
         ∧ Forall sane_call l
         ∧ (isLoading (component u) = true → is_respond ev = false →
            isLoading (f (component u)) = true ∧ filter is_query l = [])).
  { intros f (l & Hc & Hs & Hl). exists l. auto. }
  destruct ev as [now | text | now | now shift | now ty detail | now q o
                 | now | m | [f|] | now f res | now f].
  - apply (Hw (ngOnInit now)). by apply appends_nothing.
  - apply (Hw (setUserInput text)). by apply appends_nothing.
  - apply (Hw (sendMessage now)), appends_sendMessage.
  - destruct shift.
    + apply (Hw (λ s, s)). by apply appends_nothing.
    + apply (Hw (sendMessage now)), appends_sendMessage.
  - apply (Hw (onWindowEvent now ty detail)).
    unfold onWindowEvent. repeat case_decide.
    + destruct (appends_sendMessage now (setUserInput detail (component u)))
        as (l & Hc & Hs & Hl).
      exists l. auto.
    + apply appends_loadSession.
    + by apply (appends_nothing (λ s, s)).
  - cbn [step on_component component is_respond].
    destruct o as [r|]; cbn [deliver].
    + destruct (success r) eqn:Hr.
      * rewrite (onNext_success now r (component u) Hr). cbn [calls].
        eexists. split; [reflexivity |]. split; [| done].
        destruct (currentSession (component u)), (includeAudio _ && _);
          by repeat constructor.
      * unfold onNext. rewrite Hr. cbn [calls]. eexists.
        split; [reflexivity |]. split; [by repeat constructor | done].
    + eexists. split; [reflexivity |].
      split; [by repeat constructor | done].
  - apply (Hw (clearChat now)). by apply appends_nothing.
  - apply (Hw (playAudio m)), appends_playAudio.
  - apply (Hw (λ s, s)). by apply appends_nothing.
  - apply (Hw (λ s, s)). by apply appends_nothing.
  - eexists. split; [reflexivity |].
    split; [by repeat constructor | done].
  - eexists. split; [reflexivity |].
    split; [by repeat constructor | done].
Qed.

(** X24.  Whatever the events, the component never sends a blank query
    and never creates a session from a blank text, and the title it
    gives a session on renaming has at most 30 code units. *)
Theorem calls_are_sane (language : jsstring) (h : H) (evs : list Event) :
  Forall sane_call
    (calls (component (run toLowerCase (constructed language h) evs))).
Proof.
  assert (Hrun : ∀ evs u, Forall sane_call (calls (component u)) →
    Forall sane_call (calls (component (run toLowerCase u evs)))).
  { clear evs. intros evs. induction evs as [|ev evs IH]; intros u Hu; [done |].
    simpl. apply IH. destruct (step_appends u ev) as (l & -> & Hl & _).
    by apply Forall_app. }
  apply Hrun. constructor.
Qed.

(** X25.  One request at a time: from a state that is loading, as long
    as no callback of a query runs, every event leaves the component
    loading and no further query is sent, whether the user presses
    send or Enter, a suggestion arrives, a session is loaded, the chat
    is cleared or an upload finishes. *)
Theorem one_request_at_a_time u (evs : list Event) :
  isLoading (component u) = true →
  Forall (λ ev, is_respond ev = false) evs →
  isLoading (component (run toLowerCase u evs)) = true
  ∧ filter is_query (calls (component (run toLowerCase u evs)))
    = filter is_query (calls (component u)).
Proof.
  revert u. induction evs as [|ev evs IH]; intros u Hu Hevs; [done |].
  apply Forall_cons in Hevs as [Hev Hevs]. simpl.
  destruct (step_appends u ev) as (l & Hc & _ & Hl).
  destruct (Hl Hu Hev) as [Hl1 Hl2].
  destruct (IH (step toLowerCase u ev) Hl1 Hevs) as [IH1 IH2].
  split; [exact IH1 |].
  rewrite IH2, Hc, filter_app, Hl2. by rewrite app_nil_r.
Qed.

End Controller.

End RunFacts.

(* ===================================================================== *)
(** ** Instances of the statements above                                  *)
(* ===================================================================== *)

Module MoreWitnesses.

Import Charts History Chat ChatHandlers Examples MoreExamples.
Import HandlerFacts ResponseFacts UploadFacts PaletteFacts RenderFacts.
Import RunFacts.

Lemma session_created_lazily_witness :
  accepted first_question
  ∧ filter is_create
      (new_calls first_question (sendMessage 200 first_question))
    = [HistoryCreate (js "Show equipment status") (js "en")].
Proof.
  split; [split; reflexivity |].
  apply (session_created_lazily 200 first_question).
  split; reflexivity.
Defined.

Lemma session_created_at_most_once_witness :
  creates
    (component (run asciiToLowerCase (constructed (js "en") empty_store) a_day))
  ≤ 1.
Proof.
  apply (session_created_at_most_once asciiToLowerCase (js "en") empty_store
           (constructed (js "en") empty_store) a_day).
Defined.

Lemma success_persisted_once_witness :
  success good_answer = true
  ∧ length (messages (onNext 300 good_answer asked)) = 3.
Proof.
  split; [reflexivity |].
  destruct (success_persisted_once 300 good_answer asked eq_refl)
    as (m & Hm & _).
  rewrite Hm. reflexivity.
Defined.

Lemma replay_needs_payload_witness :
  PlayAudio (Some (js "UklGRg==")) ∈ new_calls asked (playAudio spoken asked)
  ∧ ∃ a b, audio spoken = Some a ∧ audio_success a = true
           ∧ audio_base64 a = Some b ∧ b ≠ []
           ∧ PlayAudio (Some (js "UklGRg==")) = PlayAudio (Some b).
Proof.
  assert (Hin : PlayAudio (Some (js "UklGRg=="))
                ∈ new_calls asked (playAudio spoken asked)).
  { vm_compute. left. }
  split; [exact Hin |].
  apply (replay_needs_payload spoken asked). exact Hin.
Defined.

Lemma response_lands_in_loaded_session_witness :
  accepted first_question
  ∧ load (js "s") (history (sendMessage 200 first_question))
    = Some stored_session
  ∧ isLoading (loadSession (js "s") (sendMessage 200 first_question)) = true.
Proof.
  split; [split; reflexivity |]. split; [reflexivity |].
  apply (response_lands_in_loaded_session 200 300 (js "s") stored_session
           good_answer first_question).
  - split; reflexivity.
  - reflexivity.
  - reflexivity.
Defined.

Lemma suggestion_not_sent_witness :
  (isLoading asked = true ∨ Forall is_white_space (js "Any incidents?"))
  ∧ suggestQuestion 250 (js "Any incidents?") asked
    = setUserInput (js "Any incidents?") asked.
Proof.
  split; [left; reflexivity |].
  apply (suggestion_not_sent 250 (js "Any incidents?") asked).
  left. reflexivity.
Defined.

Lemma status_message_prevents_rename_witness :
  length (messages (component opened)) = 1
  ∧ accepted
      (setUserInput (js "Show equipment status")
         (component (uploadNext 150 report (Some true) opened)))
  ∧ length
      (messages
         (sendMessage 200
            (setUserInput (js "Show equipment status")
               (component (uploadNext 150 report (Some true) opened)))))
    = 3.
Proof.
  split; [reflexivity |]. split; [split; reflexivity |].
  apply (status_message_prevents_rename 150 200 report (Some true)
           (js "Show equipment status") opened).
  - reflexivity.
  - split; reflexivity.
Defined.

Lemma toggleHistory_twice_witness :
  App.sessions
    (App.toggleHistory parse_literals (storage_with (js "null"))
       (App.toggleHistory parse_literals (storage_with (js "null"))
          {| App.showHistory := true; App.sessions := App.JArr [] |}))
  = App.JNull.
Proof.
  rewrite (proj1 (ToggleFacts.toggleHistory_twice parse_literals
                    (storage_with (js "null"))
                    {| App.showHistory := true;
                       App.sessions := App.JArr [] |})).
  reflexivity.
Defined.

Lemma generateColors_prefix_witness :
  3 ≤ 12 ∧ take 3 (generateColors 12 1) = generateColors 3 1.
Proof.
  split; [lia |]. apply (generateColors_prefix 3 12 1). lia.
Defined.

Lemma palettes_agree_witness :
  2 < 6 ∧ 2 < 9 ∧ generateColors 9 1 !! 2 = getColor 2 1.
Proof.
  split; [lia |]. split; [lia |].
  apply (palettes_agree 9 2 1 1); lia.
Defined.

Lemma formatLabel_shape_witness :
  Forall (λ c, Labels.is_capital c = false) (js "monthly_production")
  ∧ formatLabel asciiToUpperCase (js "monthly_production")
    = upper_first asciiToUpperCase (js "monthly_production").
Proof.
  assert (Hk : Forall (λ c, Labels.is_capital c = false)
                 (js "monthly_production")).
  { repeat constructor. }
  split; [exact Hk |].
  apply (formatLabel_shape asciiToUpperCase (js "monthly_production")).
  exact Hk.
Defined.

Lemma categorical_chart_aligned_witness :
  (pie = pie ∨ pie = doughnut)
  ∧ length (labels (chartData asciiToUpperCase pie equipment_example)) = 2.
Proof.
  split; [by left |].
  apply (categorical_chart_aligned asciiToUpperCase pie equipment_example).
  by left.
Defined.

Lemma series_chart_sizes_witness :
  (line = line ∨ line = bar)
  ∧ length (labels (chartData asciiToUpperCase line production_example))
    ≤ 2.
Proof.
  split; [by left |].
  apply (series_chart_sizes asciiToUpperCase line production_example).
  by left.
Defined.

Lemma rendered_chart_shows_inputs_witness :
  surface (document example_view)
    equipment_component = Some 7
  ∧ at_most_one_live (engine example_view)
  ∧ length
      (live_on 7
         (renderChart asciiToUpperCase (document example_view)
            equipment_component (engine example_view)).2) = 1.
Proof.
  split; [reflexivity |].
  split; [exact EngineFacts.example_view_at_most_one |].
  destruct (rendered_chart_shows_inputs asciiToUpperCase
              (document example_view)
              equipment_component (engine example_view) 7
              eq_refl EngineFacts.example_view_at_most_one)
    as (ch & Hl & _).
  rewrite Hl. reflexivity.
Defined.

Lemma teardown_frees_surface_witness :
  surface (document example_view)
    equipment_component = Some 7
  ∧ at_most_one_live (engine example_view)
  ∧ let r :=
      renderChart asciiToUpperCase (document example_view)
        equipment_component
        (engine example_view) in
    live_on 7 (ngOnDestroy r.1 r.2).2 = [].
Proof.
  split; [reflexivity |].
  split; [exact EngineFacts.example_view_at_most_one |].
  apply (teardown_frees_surface asciiToUpperCase (document example_view)
           equipment_component
           (engine example_view) 7 eq_refl
           EngineFacts.example_view_at_most_one).
Defined.

Lemma one_request_at_a_time_witness :
  isLoading (component waiting) = true
  ∧ Forall (λ ev, is_respond ev = false) impatience
  ∧ filter is_query
      (calls (component (run asciiToLowerCase waiting impatience)))
    = filter is_query (calls (component waiting)).
Proof.
  assert (Hevs : Forall (λ ev, is_respond ev = false) impatience).
  { repeat constructor. }
  split; [reflexivity |]. split; [exact Hevs |].
  apply (one_request_at_a_time asciiToLowerCase waiting impatience eq_refl
           Hevs).
Defined.

End MoreWitnesses.
